(** * AskAI.vue: the "Ask AI" prompt box of the code node editor

    A shallow embedding of the script of
    [packages/editor-ui/src/components/CodeNodeEditor/AskAI/AskAI.vue]
    and the properties of its submission flow, error classification,
    schema extraction, loading animation and draft persistence.

    Conventions of the embedding:
    - reactive refs are fields of a record that is threaded explicitly;
    - emitted events, toasts, telemetry calls, timers and animation-frame
      requests are logged in the [World] the component runs in;
    - JavaScript exceptions are an explicit outcome of a computation;
    - collaborators that live outside the component (stores, i18n, the
      schema composable, lodash, the constants module) are Section variables;
    - JavaScript numbers are exact (Z for status codes, Q for timestamps and
      progress): floating-point rounding is not modelled. *)

From Stdlib Require Import ZArith QArith Qminmax Qround Bool List String Ascii Lia Lqa.
From Stdlib Require Import DecimalString.
From stdpp Require Import gmap strings list.
Import ListNotations.

Local Open Scope string_scope.
Local Open Scope list_scope.

#[local] Set Warnings "-register-all".

(** ** JavaScript values carried by a rejected request

    The [catch] clause binds an untyped value.  Only the shapes that matter
    for reading a status are modelled: [undefined], [null], booleans, numbers
    and plain objects with named fields. *)

Inductive JsVal : Type :=
| JUndefined
| JNull
| JBool (b : bool)
| JNum (z : Z)
| JObj (fields : list (string * JsVal)).

(** What a JavaScript computation can throw. *)
Inductive Thrown : Type :=
| TypeError                 (* property read on [undefined] or [null] *)
| Rejection (v : JsVal).    (* the value a promise was rejected with *)

Inductive Completion (A : Type) : Type :=
| Normal (a : A)
| Throw (e : Thrown).
Arguments Normal {A} a.
Arguments Throw {A} e.

Module Js.

(** [ToBoolean]. *)
Definition truthy (v : JsVal) : bool :=
  match v with
  | JUndefined | JNull => false
  | JBool b => b
  | JNum z => negb (z =? 0)%Z
  | JObj _ => true
  end.

Definition nullish (v : JsVal) : bool :=
  match v with
  | JUndefined | JNull => true
  | _ => false
  end.

Fixpoint assoc (k : string) (fields : list (string * JsVal)) : option JsVal :=
  match fields with
  | [] => None
  | (k', v) :: rest => if String.eqb k k' then Some v else assoc k rest
  end.

(** [v.k]: a [TypeError] on [undefined] and [null], [undefined] when the
    field is missing.  Numbers and booleans have no own fields. *)
Definition get (v : JsVal) (k : string) : Completion JsVal :=
  match v with
  | JUndefined | JNull => Throw TypeError
  | JObj fields => Normal (default JUndefined (assoc k fields))
  | JBool _ | JNum _ => Normal JUndefined
  end.

(** [a || b], with [b] evaluated only when [a] is falsy. *)
Definition or_else (a : Completion JsVal) (b : Completion JsVal)
  : Completion JsVal :=
  match a with
  | Throw e => Throw e
  | Normal x => if truthy x then Normal x else b
  end.

(** [s || fallback] on strings: the empty string is falsy. *)
Definition str_or (s : option string) (fallback : string) : string :=
  match s with
  | Some (String c r) => String c r
  | Some EmptyString | None => fallback
  end.

End Js.

(** ** Data model *)

(** [INodeUi], reduced to the fields the component reads: the display name
    and the [mode] entry of [parameters]. *)
Record INodeUi : Type := mkNode {
  name : string;
  parameters_mode : option string;
}.

(** [IConnectedNode], as returned by [Workflow.getParentNodesByDepth]. *)
Record IConnectedNode : Type := mkConnected {
  cn_name : string;
  cn_depth : nat;
}.

(** The events the component can emit ([defineEmits]). *)
Inductive Emitted : Type :=
| EmitSubmit (code : string)
| EmitReplaceCode (code : string)
| EmitStartedLoading
| EmitFinishedLoading.

(** A call of [showMessage]. *)
Record Toast : Type := mkToast {
  toast_type : string;
  toast_title : string;
  toast_message : option string;
}.

(** A call of [trackAskAI]. *)
Record Tracked : Type := mkTracked {
  tr_event : string;
  tr_prompt : string;
  tr_code : option string;
  tr_tokensCount : option Z;
  tr_hasErrors : option bool;
  tr_error : option string;
}.

(** What [generateCodeForPrompt] resolves to. *)
Record Generated : Type := mkGenerated {
  code : string;
  usage_total_tokens : option Z;
}.

(** The settled promise of the API call. *)
Inductive ApiOutcome : Type :=
| Resolved (r : Generated)
| Rejected (error : JsVal).

(** The closure of one [triggerLoadingChange] call: [start] and
    [lastPhraseChange]. *)
Record Loop : Type := mkLoop {
  start : option Q;
  lastPhraseChange : Q;
}.

(** The refs of the component. *)
Record Component : Type := mkComponent {
  loadingPhraseIndex : Z;
  loaderProgress : Q;
  isLoading : bool;
  prompt : string;
  parentNodes : list INodeUi;
}.

(** A schema paired with the node it was inferred from. *)
Record NamedSchema (Schema : Type) : Type := mkNamed {
  nodeName : string;
  schema : Schema;
}.
Arguments mkNamed {Schema} nodeName schema.
Arguments nodeName {Schema} n.
Arguments schema {Schema} n.

(** The result of [getSchemas]. *)
Record Schemas (Schema : Type) : Type := mkSchemas {
  parentNodesNames : list string;
  inputSchema : option (NamedSchema Schema);
  parentNodesSchemas : list (NamedSchema Schema);
}.
Arguments mkSchemas {Schema} parentNodesNames inputSchema parentNodesSchemas.
Arguments parentNodesNames {Schema} s.
Arguments inputSchema {Schema} s.
Arguments parentNodesSchemas {Schema} s.

(** The workflow object and the workflows store, reduced to the queries the
    component makes. *)
Record Workflow : Type := mkWorkflow {
  getParentNodesByDepth : string -> list IConnectedNode;
}.

Record WorkflowsStore : Type := mkWorkflowsStore {
  getCurrentWorkflow : option Workflow;
  getNodeByName : string -> option INodeUi;
}.

(** The NDV store: [ndvInputData] may be unset. *)
Record NDVStore (INodeExecutionData : Type) : Type := mkNDV {
  activeNode : option INodeUi;
  ndvInputData : option (list INodeExecutionData);
}.
Arguments mkNDV {INodeExecutionData} activeNode ndvInputData.
Arguments activeNode {INodeExecutionData} n.
Arguments ndvInputData {INodeExecutionData} n.

(** The body sent to [generateCodeForPrompt]. *)
Record GenerationRequest (Schema : Type) : Type := mkRequest {
  question : string;
  context_schema : list (NamedSchema Schema);
  context_inputSchema : option (NamedSchema Schema);
  model : string;
  n8nVersion : string;
}.
Arguments mkRequest {Schema}.
Arguments question {Schema} g.
Arguments context_schema {Schema} g.
Arguments context_inputSchema {Schema} g.
Arguments model {Schema} g.
Arguments n8nVersion {Schema} g.

(** The only callback the component hands to [setTimeout]. *)
Inductive TimerCallback : Type :=
| SetIsLoadingFalse.

(** The world the component runs in: its refs, what it has emitted, shown,
    tracked and sent so far, what it has scheduled, and the session storage. *)
Record World (Schema : Type) : Type := mkWorld {
  component : Component;
  emitted : list Emitted;                 (* oldest first *)
  toasts : list Toast;
  tracked : list Tracked;
  requests : list (GenerationRequest Schema);
  timeouts : list (Z * TimerCallback);    (* pending, with their delay in ms *)
  frames : list Loop;                     (* pending requestAnimationFrame(step) *)
  random_calls : nat;                     (* calls of Math.random so far *)
  sessionStorage : gmap string string;
}.
Arguments mkWorld {Schema}.
Arguments component {Schema} w.
Arguments emitted {Schema} w.
Arguments toasts {Schema} w.
Arguments tracked {Schema} w.
Arguments requests {Schema} w.
Arguments timeouts {Schema} w.
Arguments frames {Schema} w.
Arguments random_calls {Schema} w.
Arguments sessionStorage {Schema} w.

(** What the outside answers during one [onSubmit]. *)
Record Interaction : Type := mkInteraction {
  hasChanges : bool;                      (* props.hasChanges *)
  alertAnswer : string;                   (* what [await alert(...)] yields *)
  getVariant : string -> option string;   (* usePostHog().getVariant *)
  versionCli : string;                    (* useRootStore().versionCli *)
  framesWhileWaiting : list Q;            (* frames run while the call is pending *)
  apiOutcome : ApiOutcome;                (* how the call settles *)
}.

(** ** Array helpers with JavaScript's callback signature *)

Module JsArray.

(** [Array.prototype.findIndex]: the first index whose element satisfies
    [p], or [-1]. *)
Fixpoint findIndex_from {A} (p : A -> bool) (l : list A) (i : Z) : Z :=
  match l with
  | [] => (-1)%Z
  | x :: rest => if p x then i else findIndex_from p rest (i + 1)%Z
  end.

Definition findIndex {A} (p : A -> bool) (l : list A) : Z :=
  findIndex_from p l 0%Z.

(** [Array.prototype.filter] with the three-argument callback
    [(element, index, array)]. *)
Fixpoint filter_from {A} (p : A -> Z -> list A -> bool)
         (whole : list A) (l : list A) (i : Z) : list A :=
  match l with
  | [] => []
  | x :: rest =>
      if p x i whole
      then x :: filter_from p whole rest (i + 1)%Z
      else filter_from p whole rest (i + 1)%Z
  end.

Definition filter {A} (p : A -> Z -> list A -> bool) (l : list A) : list A :=
  filter_from p l l 0%Z.

(** [Array.prototype.shift]: the removed first element and what is left. *)
Definition shift {A} (l : list A) : option A * list A :=
  match l with
  | [] => (None, [])
  | x :: rest => (Some x, rest)
  end.

(** [.filter((n) => n !== null)] followed by the cast to the non-null
    element type. *)
Fixpoint non_null {A} (l : list (option A)) : list A :=
  match l with
  | [] => []
  | Some x :: rest => x :: non_null rest
  | None :: rest => non_null rest
  end.

End JsArray.

(** ** Ancestor names as the specification words them

    "Excluding self-references and duplicate names (first occurrence wins,
    order preserved)": the listed names without the active node's, each kept
    where it first occurs.  [getParentNodes] is compared with this reading. *)

Fixpoint keep_first (seen : list string) (names : list string) : list string :=
  match names with
  | [] => []
  | n :: rest =>
      if existsb (String.eqb n) seen
      then keep_first seen rest
      else n :: keep_first (n :: seen) rest
  end.

Definition ancestors_spec (active : string) (listed : list string) : list string :=
  keep_first [] (List.filter (fun n => negb (String.eqb n active)) listed).

(** [c.repeat(n)] for a one-character string. *)
Fixpoint repeat_char (c : ascii) (n : nat) : string :=
  match n with
  | O => ""
  | S k => String c (repeat_char c k)
  end.

(** ** A workflow to run the component on

    The active node "A" has the parents "B" and "C", which share the parent
    "D" (the diamond); "C" and "D" have sample data, "B" has none.  An item
    is represented by its field names and a schema by the fields it lists.
    The constants are given sample values and the i18n table renders a key as
    itself. *)

Definition demo_min_length : nat := 15.
Definition demo_max_length : nat := 600.
Definition demo_duration : Q := 12000.

Definition demo_baseText (key : string) : string := key.

Definition demo_random (n : nat) : Q := 1 # 2.

Definition demo_pinned (node : INodeUi) : list (list string) :=
  if String.eqb (name node) "C" then [["sum"]]
  else if String.eqb (name node) "D" then [["a"; "b"]]
  else [].

Definition demo_toJson (items : list (list string)) : list (list string) :=
  items.

Definition demo_inferSchema (items : list (list string)) (_ : bool)
  : list string :=
  concat items.

Definition demo_nodes : list INodeUi :=
  [ mkNode "A" (Some "runOnceForAllItems");
    mkNode "B" None; mkNode "C" None; mkNode "D" None ].

Definition demo_workflow : Workflow :=
  mkWorkflow (fun n =>
    if String.eqb n "A"
    then [ mkConnected "B" 1; mkConnected "C" 1;
           mkConnected "D" 2; mkConnected "D" 2 ]
    else []).

Definition demo_stores : WorkflowsStore :=
  mkWorkflowsStore
    (Some demo_workflow)
    (fun n => List.find (fun node => String.eqb (name node) n) demo_nodes).

Definition demo_ndv : NDVStore (list string) :=
  mkNDV (Some (mkNode "A" (Some "runOnceForAllItems"))) (Some [["sum"]]).

Definition demo_component : Component :=
  mkComponent 0 0 false "add two numbers"
              [mkNode "B" None; mkNode "C" None; mkNode "D" None].

Definition demo_world : World (list string) :=
  mkWorld demo_component [] [] [] [] [] [] 0 ∅.

(** The call resolves with the code "return a+b" after two frames. *)
Definition demo_resolves : Interaction :=
  mkInteraction false "confirm" (fun _ => None) "1.0.0" [16%Q; 32%Q]
                (Resolved (mkGenerated "return a+b" (Some 42%Z))).

(** The call rejects with an error object that has neither field. *)
Definition demo_rejects : Interaction :=
  mkInteraction false "confirm" (fun _ => None) "1.0.0" [16%Q; 32%Q]
                (Rejected (JObj [])).

(** The call rejects with a falsy direct status and 429 in the response. *)
Definition demo_rejects_429 : Interaction :=
  mkInteraction false "confirm" (fun _ => None) "1.0.0" [16%Q; 32%Q]
                (Rejected
                   (JObj [ ("httpStatusCode", JNum 0);
                           ("response", JObj [("status", JNum 429)]) ])).

(** A world in the middle of a call: loading, with one loop pending whose
    first frame was at 5 ms. *)
Definition demo_loading_world : World (list string) :=
  mkWorld (mkComponent 3 100 true "add two numbers" [])
          [] [] [] [] [] [mkLoop (Some 5%Q) 13000%Q] 0 ∅.

(** The store without the node "B". *)
Definition demo_stores_without_B : WorkflowsStore :=
  mkWorkflowsStore
    (Some demo_workflow)
    (fun n =>
       List.find (fun node => String.eqb (name node) n)
                 [ mkNode "A" (Some "runOnceForAllItems");
                   mkNode "C" None; mkNode "D" None ]).

(** A prompt of 601 characters and no parent node. *)
Definition demo_long_prompt : Component :=
  mkComponent 0 0 false (repeat_char "a" 601) [].

(** lodash's [snakeCase] on the names its ASCII word splitter handles
    (letters and digits separated by other ASCII characters, no case or
    letter-digit boundary inside a word): the runs of letters and digits,
    lowercased and joined by "_". *)
Definition is_alnum (c : ascii) : bool :=
  let n := nat_of_ascii c in
  ((48 <=? n) && (n <=? 57) || (65 <=? n) && (n <=? 90)
   || (97 <=? n) && (n <=? 122))%nat.

Definition to_lower (c : ascii) : ascii :=
  let n := nat_of_ascii c in
  if ((65 <=? n) && (n <=? 90))%nat then ascii_of_nat (n + 32) else c.

Fixpoint snake_words (s : string) (started in_word : bool) : string :=
  match s with
  | EmptyString => EmptyString
  | String c rest =>
      if is_alnum c
      then
        let word := String (to_lower c) (snake_words rest true true) in
        if started && negb in_word then String "_" word else word
      else snake_words rest started false
  end.

Definition snakeCase_ascii (s : string) : string := snake_words s false false.

(** ** The component *)

Section AskAI.

#[local] Set Default Proof Using "Type".

(** [@/constants]. *)
Variable ASK_AI_MIN_PROMPT_LENGTH : nat.
Variable ASK_AI_MAX_PROMPT_LENGTH : nat.
Variable ASK_AI_LOADING_DURATION_MS : Q.

(** [useI18n().baseText]. *)
Variable baseText : string -> string.

(** [useDataSchema()], [executionDataToJson] and the types they exchange.
    [schema_value_length s] is [s.value.length]. *)
Variable INodeExecutionData : Type.
Variable IDataObject : Type.
Variable Schema : Type.
Variable schema_value_length : Schema -> nat.
Variable getInputDataWithPinned : INodeUi -> list INodeExecutionData.
Variable executionDataToJson : list INodeExecutionData -> list IDataObject.
Variable getSchemaForExecutionData : list IDataObject -> bool -> Schema.

(** lodash's [snakeCase]. *)
Variable snakeCase : string -> string.

(** [Math.random()]: the value returned by the n-th call. *)
Variable Math_random : nat -> Q.

(** [ASK_AI_EXPERIMENT.name] and [ASK_AI_EXPERIMENT.gpt4]. *)
Variable ASK_AI_EXPERIMENT_name : string.
Variable ASK_AI_EXPERIMENT_gpt4 : string.

(** The store and the world at the types of this section. *)
Local Abbreviation NDVStore := (NDVStore INodeExecutionData) (only parsing).
Local Abbreviation World := (World Schema) (only parsing).
Local Abbreviation GenerationRequest := (GenerationRequest Schema) (only parsing).

(** *** Computed flags *)

Definition isEachItemMode (ndv : NDVStore) : bool :=
  let mode :=
    match activeNode ndv with
    | Some node => parameters_mode node
    | None => None
    end in
  match mode with
  | Some m => String.eqb m "runOnceForEachItem"
  | None => false
  end.

Definition hasExecutionData (ndv : NDVStore) : bool :=
  (0 <? length (default [] (ndvInputData ndv)))%nat.

Definition isSubmitEnabled (ndv : NDVStore) (c : Component) : bool :=
  negb (isEachItemMode ndv)
  && (ASK_AI_MIN_PROMPT_LENGTH <=? String.length (prompt c))%nat
  && hasExecutionData ndv.

(** *** Error classification *)

Definition errorMessages : list (Z * string) :=
  [ (400%Z, baseText "codeNodeEditor.askAi.generationFailedUnknown");
    (413%Z, baseText "codeNodeEditor.askAi.generationFailedTooLarge");
    (429%Z, baseText "codeNodeEditor.askAi.generationFailedRate");
    (500%Z, baseText "codeNodeEditor.askAi.generationFailedUnknown") ].

Fixpoint record_get (k : Z) (r : list (Z * string)) : option string :=
  match r with
  | [] => None
  | (k', v) :: rest => if (k =? k')%Z then Some v else record_get k rest
  end.

(** [errorMessages[statusCode]]: the keys of the record are the four
    numbers, so only a number can hit one of them. *)
Definition errorMessages_at (statusCode : JsVal) : option string :=
  match statusCode with
  | JNum z => record_get z errorMessages
  | _ => None
  end.

Definition getErrorMessageByStatusCode (statusCode : JsVal) : string :=
  Js.str_or (errorMessages_at statusCode)
            (baseText "codeNodeEditor.askAi.generationFailedUnknown").

(** *** Ancestors of the active node *)

Definition getParentNodes (ndv : NDVStore) (ws : WorkflowsStore)
  : list INodeUi :=
  match activeNode ndv, getCurrentWorkflow ws with
  | Some active, Some workflow =>
      JsArray.non_null
        (map (fun n => getNodeByName ws (cn_name n))
           (JsArray.filter
              (fun n i nodes =>
                 negb (String.eqb (cn_name n) (name active))
                 && (JsArray.findIndex
                       (fun node => String.eqb (cn_name node) (cn_name n))
                       nodes =? i)%Z)
              (getParentNodesByDepth workflow (name active))))
  | _, _ => []
  end.

(** *** Schemas of the ancestors *)

(** The callback mapped over [parentNodes]. *)
Definition schema_of_node (node : INodeUi) : NamedSchema Schema :=
  let inputData := getInputDataWithPinned node in
  mkNamed
    (Js.str_or (Some (name node)) "")
    (getSchemaForExecutionData (executionDataToJson inputData) true).

(** The callback of the filter: [node.schema?.value.length > 0]. *)
Definition has_schema (node : NamedSchema Schema) : bool :=
  (0 <? schema_value_length (schema node))%nat.

Definition getSchemas (c : Component) : Schemas Schema :=
  let parentNodesNames := map name (parentNodes c) in
  let parentNodesSchemas :=
    List.filter has_schema (map schema_of_node (parentNodes c)) in
  let '(inputSchema, parentNodesSchemas) := JsArray.shift parentNodesSchemas in
  mkSchemas parentNodesNames inputSchema parentNodesSchemas.

(** *** Computations in the world: state and exceptions *)

Definition M (A : Type) : Type := World -> Completion A * World.

Definition ret {A} (a : A) : M A := fun w => (Normal a, w).

Definition bind {A B} (m : M A) (f : A -> M B) : M B :=
  fun w =>
    match m w with
    | (Normal a, w') => f a w'
    | (Throw e, w') => (Throw e, w')
    end.

Definition lift {A} (c : Completion A) : M A := fun w => (c, w).

Definition gets {A} (f : World -> A) : M A := fun w => (Normal (f w), w).

Definition modify (f : World -> World) : M unit := fun w => (Normal tt, f w).

(** The value bound by [catch (error)]: a [TypeError] is an object with
    neither [httpStatusCode] nor [response]. *)
Definition caught (e : Thrown) : JsVal :=
  match e with
  | TypeError => JObj []
  | Rejection v => v
  end.

Definition try_catch {A} (body : M A) (handler : JsVal -> M A) : M A :=
  fun w =>
    match body w with
    | (Normal a, w') => (Normal a, w')
    | (Throw e, w') => handler (caught e) w'
    end.

Notation "x <- m ;;; k" := (bind m (fun x => k))
  (at level 20, m at level 99, k at level 200, only parsing).
Notation "m ;;; k" := (bind m (fun _ => k))
  (at level 100, k at level 200, right associativity, only parsing).

(** Field updates. *)
Definition on_component (f : Component -> Component) (w : World) : World :=
  mkWorld (f (component w)) (emitted w) (toasts w) (tracked w) (requests w)
          (timeouts w) (frames w) (random_calls w) (sessionStorage w).

Definition set_loadingPhraseIndex (v : Z) (c : Component) : Component :=
  mkComponent v (loaderProgress c) (isLoading c) (prompt c) (parentNodes c).
Definition set_loaderProgress (v : Q) (c : Component) : Component :=
  mkComponent (loadingPhraseIndex c) v (isLoading c) (prompt c) (parentNodes c).
Definition set_isLoading (v : bool) (c : Component) : Component :=
  mkComponent (loadingPhraseIndex c) (loaderProgress c) v (prompt c) (parentNodes c).
Definition set_prompt (v : string) (c : Component) : Component :=
  mkComponent (loadingPhraseIndex c) (loaderProgress c) (isLoading c) v (parentNodes c).
Definition set_parentNodes (v : list INodeUi) (c : Component) : Component :=
  mkComponent (loadingPhraseIndex c) (loaderProgress c) (isLoading c) (prompt c) v.

Definition emit (e : Emitted) : M unit :=
  modify (fun w =>
    mkWorld (component w) (emitted w ++ [e]) (toasts w) (tracked w) (requests w)
            (timeouts w) (frames w) (random_calls w) (sessionStorage w)).

Definition showMessage (t : Toast) : M unit :=
  modify (fun w =>
    mkWorld (component w) (emitted w) (toasts w ++ [t]) (tracked w) (requests w)
            (timeouts w) (frames w) (random_calls w) (sessionStorage w)).

Definition trackAskAI (t : Tracked) : M unit :=
  modify (fun w =>
    mkWorld (component w) (emitted w) (toasts w) (tracked w ++ [t]) (requests w)
            (timeouts w) (frames w) (random_calls w) (sessionStorage w)).

Definition send (r : GenerationRequest) : M unit :=
  modify (fun w =>
    mkWorld (component w) (emitted w) (toasts w) (tracked w) (requests w ++ [r])
            (timeouts w) (frames w) (random_calls w) (sessionStorage w)).

Definition setTimeout (cb : TimerCallback) (delay : Z) : M unit :=
  modify (fun w =>
    mkWorld (component w) (emitted w) (toasts w) (tracked w) (requests w)
            (timeouts w ++ [(delay, cb)]) (frames w) (random_calls w)
            (sessionStorage w)).

Definition set_frames (fs : list Loop) (w : World) : World :=
  mkWorld (component w) (emitted w) (toasts w) (tracked w) (requests w)
          (timeouts w) fs (random_calls w) (sessionStorage w).

Definition requestAnimationFrame (l : Loop) : M unit :=
  modify (fun w => set_frames (frames w ++ [l]) w).

Definition random : M Q :=
  fun w =>
    (Normal (Math_random (random_calls w)),
     mkWorld (component w) (emitted w) (toasts w) (tracked w) (requests w)
             (timeouts w) (frames w) (S (random_calls w)) (sessionStorage w)).

Definition set_sessionStorage (st : gmap string string) (w : World) : World :=
  mkWorld (component w) (emitted w) (toasts w) (tracked w) (requests w)
          (timeouts w) (frames w) (random_calls w) st.

(** *** Loading state *)

(** [a < b] on numbers. *)
Definition Qlt_bool (a b : Q) : bool := negb (Qle_bool b a).

(** One run of the [step] callback of the loop whose closure is [l],
    at [timestamp].  [!start] and [!lastPhraseChange] also hold of [0]. *)
Definition step (l : Loop) (timestamp : Q) : M unit :=
  let start :=
    match start l with
    | None => timestamp
    | Some s => if Qeq_bool s 0 then timestamp else s
    end in
  let phraseChange :=
    Qeq_bool (lastPhraseChange l) 0
    || Qle_bool 2000 (timestamp - lastPhraseChange l) in
  (if phraseChange
   then r <- random ;;;
        modify (on_component (set_loadingPhraseIndex (Qfloor (r * 8))))
   else ret tt) ;;;
  let lastPhraseChange :=
    if phraseChange then timestamp else lastPhraseChange l in
  let elapsed := (timestamp - start)%Q in
  modify (on_component
            (set_loaderProgress
               (Qmin ((elapsed / ASK_AI_LOADING_DURATION_MS) * 100) 100))) ;;;
  loading <- gets (fun w => isLoading (component w)) ;;;
  if negb loading then ret tt
  else
    progress <- gets (fun w => loaderProgress (component w)) ;;;
    if Qlt_bool progress 100 || Qlt_bool timestamp (lastPhraseChange + 2000)
    then requestAnimationFrame (mkLoop (Some start) lastPhraseChange)
    else ret tt.

Definition triggerLoadingChange : M unit :=
  requestAnimationFrame (mkLoop None 0).

Definition startLoading : M unit :=
  emit EmitStartedLoading ;;;
  modify (on_component (set_loaderProgress 0)) ;;;
  modify (on_component (set_isLoading true)) ;;;
  triggerLoadingChange.

Definition stopLoading : M unit :=
  modify (on_component (set_loaderProgress 100)) ;;;
  emit EmitFinishedLoading ;;;
  setTimeout SetIsLoadingFalse 200.

(** *** The browser's side: frames and timers *)

Fixpoint run_steps (pending : list Loop) (timestamp : Q) : M unit :=
  match pending with
  | [] => ret tt
  | l :: rest => step l timestamp ;;; run_steps rest timestamp
  end.

(** One animation frame: the callbacks requested so far run once; what
    they request is left for the next frame. *)
Definition animationFrame (timestamp : Q) : M unit :=
  pending <- gets frames ;;;
  modify (set_frames []) ;;;
  run_steps pending timestamp.

Fixpoint animationFrames (timestamps : list Q) : M unit :=
  match timestamps with
  | [] => ret tt
  | t :: rest => animationFrame t ;;; animationFrames rest
  end.

Definition run_timer (cb : TimerCallback) : M unit :=
  match cb with
  | SetIsLoadingFalse => modify (on_component (set_isLoading false))
  end.

Fixpoint run_timers (pending : list (Z * TimerCallback)) : M unit :=
  match pending with
  | [] => ret tt
  | (_, cb) :: rest => run_timer cb ;;; run_timers rest
  end.

(** The pending timers expire. *)
Definition timersExpire : M unit :=
  pending <- gets timeouts ;;;
  modify (fun w =>
    mkWorld (component w) (emitted w) (toasts w) (tracked w) (requests w)
            [] (frames w) (random_calls w) (sessionStorage w)) ;;;
  run_timers pending.

(** *** Submission *)

(** [await generateCodeForPrompt(ctx, body)]. *)
Definition generateCodeForPrompt (io : Interaction) (body : GenerationRequest)
  : M Generated :=
  send body ;;;
  animationFrames (framesWhileWaiting io) ;;;
  match apiOutcome io with
  | Resolved r => ret r
  | Rejected error => lift (Throw (Rejection error))
  end.

(** [error?.response.status]: only a nullish [error] short-circuits. *)
Definition error_response_status (error : JsVal) : Completion JsVal :=
  if Js.nullish error then Normal JUndefined
  else
    match Js.get error "response" with
    | Normal response => Js.get response "status"
    | Throw e => Throw e
    end.

(** [error.httpStatusCode || error?.response.status]. *)
Definition error_status (error : JsVal) : Completion JsVal :=
  Js.or_else (Js.get error "httpStatusCode") (error_response_status error).

(** The [try] block. *)
Definition onSubmit_try (io : Interaction) (schemas : Schemas Schema) : M unit :=
  let version := versionCli io in
  let model :=
    match getVariant io ASK_AI_EXPERIMENT_name with
    | Some variant =>
        if String.eqb variant ASK_AI_EXPERIMENT_gpt4
        then "gpt-4" else "gpt-3.5-turbo-16k"
    | None => "gpt-3.5-turbo-16k"
    end in
  p <- gets (fun w => prompt (component w)) ;;;
  r <- generateCodeForPrompt io
         (mkRequest p (parentNodesSchemas schemas)
                    (inputSchema schemas) model version) ;;;
  stopLoading ;;;
  emit (EmitReplaceCode (code r)) ;;;
  showMessage
    (mkToast "success"
             (baseText "codeNodeEditor.askAi.generationCompleted")
             None) ;;;
  p <- gets (fun w => prompt (component w)) ;;;
  trackAskAI
    (mkTracked "askAi.generationFinished" p (Some (code r))
               (usage_total_tokens r) (Some false) (Some "")).

(** The [catch (error)] block. *)
Definition onSubmit_catch (error : JsVal) : M unit :=
  status <- lift (error_status error) ;;;
  showMessage
    (mkToast "error"
             (baseText "codeNodeEditor.askAi.generationFailed")
             (Some (getErrorMessageByStatusCode status))) ;;;
  p <- gets (fun w => prompt (component w)) ;;;
  status <- lift (error_status error) ;;;
  trackAskAI
    (mkTracked "askAi.generationFinished" p (Some "")
               (Some 0%Z) (Some true)
               (Some (getErrorMessageByStatusCode status))) ;;;
  stopLoading.

Definition onSubmit (ndv : NDVStore) (io : Interaction) : M unit :=
  match activeNode ndv with
  | None => ret tt
  | Some _ =>
      schemas <- gets (fun w => getSchemas (component w)) ;;;
      p <- gets (fun w => prompt (component w)) ;;;
      trackAskAI (mkTracked "ask.generationClicked" p None None None None) ;;;
      let generate : M unit :=
        startLoading ;;;
        try_catch (onSubmit_try io schemas) onSubmit_catch in
      if hasChanges io
      then
        let confirmModal := alertAnswer io in
        if String.eqb confirmModal "cancel" then ret tt else generate
      else generate
  end.

(** *** Draft persistence *)

(** The key of the slot handed to [useSessionStorage]. *)
Definition getSessionStoragePrompt (ndv : NDVStore) : string :=
  let codeNodeName :=
    match activeNode ndv with
    | Some node => name node
    | None => ""
    end in
  let hashedCode := snakeCase codeNodeName in
  "ask_ai_prompt__" ++ hashedCode.

(** Modelled from the spec: the ref returned by [useSessionStorage(key, '')]
    (VueUse, not part of the repository) over the "scoped key-value storage:
    get/set string by key".  Reading the ref gives the stored string, or the
    default when the slot is absent ("empty string if absent"). *)
Definition storage_read (key : string) (dflt : string) : M string :=
  gets (fun w => default dflt (sessionStorage w !! key)).

(** Modelled from the spec: assigning the ref stores the string in the
    slot. *)
Definition storage_write (key : string) (v : string) : M unit :=
  modify (fun w => set_sessionStorage (<[key := v]> (sessionStorage w)) w).

Definition onPromptInput (ndv : NDVStore) (inputValue : string) : M unit :=
  storage_write (getSessionStoragePrompt ndv) inputValue.

(** An input event of the textarea: [v-model] updates [prompt], then
    [@input] calls [onPromptInput]. *)
Definition inputEvent (ndv : NDVStore) (inputValue : string) : M unit :=
  modify (on_component (set_prompt inputValue)) ;;;
  onPromptInput ndv inputValue.

Definition onMounted (ndv : NDVStore) (ws : WorkflowsStore) : M unit :=
  stored <- storage_read (getSessionStoragePrompt ndv) "" ;;;
  modify (on_component (set_prompt stored)) ;;;
  modify (on_component (set_parentNodes (getParentNodes ndv ws))).

(** *** The template *)

(** [loadingString]: the text of the phrase [loadingPhraseIndex] points at.
    The index is an integer, which the template literal prints in decimal. *)
Definition loadingString (c : Component) : string :=
  baseText
    ("codeNodeEditor.askAi.loadingPhrase"
       ++ NilZero.string_of_int (Z.to_int (loadingPhraseIndex c))).

(** The spans of the tooltip, by their [data-test-id]. *)
Inductive TooltipSpan : Type :=
| NoInputData          (* ask-ai-cta-tooltip-no-input-data *)
| NoPrompt             (* ask-ai-cta-tooltip-no-prompt *)
| OnlyAllItemsMode     (* ask-ai-cta-tooltip-only-all-items-mode *)
| PromptTooShort.      (* ask-ai-cta-tooltip-prompt-too-short *)

(** The [v-if] / [v-else-if] chain of the tooltip's content. *)
Definition tooltipContent (ndv : NDVStore) (c : Component)
  : option TooltipSpan :=
  if negb (hasExecutionData ndv) then Some NoInputData
  else if (String.length (prompt c) =? 0)%nat then Some NoPrompt
  else if isEachItemMode ndv then Some OnlyAllItemsMode
  else if (String.length (prompt c) <? ASK_AI_MIN_PROMPT_LENGTH)%nat
       then Some PromptTooShort
  else None.

(** What the controls row renders: the loader while [isLoading], else the
    button inside its tooltip ([:disabled] of the tooltip is
    [isSubmitEnabled], of the button its negation). *)
Inductive Controls : Type :=
| Loader (text : string) (progress : Q)
| SubmitButton (disabled : bool) (tooltip : option TooltipSpan).

Definition controls (ndv : NDVStore) (c : Component) : Controls :=
  if isLoading c
  then Loader (loadingString c) (loaderProgress c)
  else
    SubmitButton
      (negb (isSubmitEnabled ndv c))
      (if isSubmitEnabled ndv c then None else tooltipContent ndv c).

(** A click on the controls row: [@click="onSubmit"] fires only when the
    button is rendered and not disabled. *)
Definition click (ndv : NDVStore) (io : Interaction) : M unit :=
  c <- gets (fun w => component w) ;;;
  match controls ndv c with
  | SubmitButton false _ => onSubmit ndv io
  | _ => ret tt
  end.

(** What the submission flow leaves alone: the draft and what was derived
    at mount. *)
Definition keeps_draft (w w' : World) : Prop :=
  sessionStorage w' = sessionStorage w
  /\ prompt (component w') = prompt (component w)
  /\ parentNodes (component w') = parentNodes (component w).



(** What animation frames leave alone: everything but the progress, the
    phrase index, the pending frame callbacks and the random source. *)
Definition untouched_by_frames (w w' : World) : Prop :=
  emitted w' = emitted w
  /\ toasts w' = toasts w
  /\ tracked w' = tracked w
  /\ requests w' = requests w
  /\ timeouts w' = timeouts w
  /\ sessionStorage w' = sessionStorage w
  /\ isLoading (component w') = isLoading (component w)
  /\ prompt (component w') = prompt (component w)
  /\ parentNodes (component w') = parentNodes (component w).

(** ** Properties *)

(** Leaves in the context only the collaborators the goal mentions. *)
Ltac only_mentioned :=
  try clear Math_random; try clear snakeCase;
  try clear ASK_AI_EXPERIMENT_name; try clear ASK_AI_EXPERIMENT_gpt4;
  try clear getSchemaForExecutionData; try clear executionDataToJson;
  try clear getInputDataWithPinned; try clear schema_value_length;
  try clear Schema; try clear IDataObject; try clear INodeExecutionData;
  try clear baseText; try clear ASK_AI_LOADING_DURATION_MS;
  try clear ASK_AI_MAX_PROMPT_LENGTH; try clear ASK_AI_MIN_PROMPT_LENGTH.

(** Running the monad: by full evaluation of the operations, and step by
    step. *)
Ltac run_monad :=
  cbv beta iota zeta delta
    [step triggerLoadingChange startLoading stopLoading
     bind gets modify ret lift random requestAnimationFrame emit showMessage
     trackAskAI send setTimeout on_component set_frames set_sessionStorage
     set_loadingPhraseIndex set_loaderProgress set_isLoading set_prompt
     set_parentNodes
     component emitted toasts tracked requests timeouts frames random_calls
     sessionStorage
     loadingPhraseIndex loaderProgress isLoading prompt parentNodes
     start lastPhraseChange fst snd negb andb].

Ltac case_if :=
  match goal with
  | |- context [if ?b then _ else _] => destruct b eqn:?
  end.

Ltac run_ops :=
  repeat (unfold bind, gets, modify, ret, lift, emit, showMessage, trackAskAI,
            send, setTimeout, requestAnimationFrame, triggerLoadingChange,
            startLoading, stopLoading, on_component, set_frames,
            set_loaderProgress, set_isLoading;
          cbn [fst snd component emitted toasts tracked requests timeouts
               frames random_calls sessionStorage loadingPhraseIndex
               loaderProgress isLoading prompt parentNodes]).

(** *** Error classification *)

Lemma str_or_same (s : string) : Js.str_or (Some s) s = s.
Proof. destruct s; reflexivity. Qed.

Lemma str_or_nonempty (s fallback : string) :
  s <> "" -> Js.str_or (Some s) fallback = s.
Proof. destruct s; [congruence | reflexivity]. Qed.

Lemma record_get_errorMessages (z : Z) :
  record_get z errorMessages =
    if (z =? 400)%Z
    then Some (baseText "codeNodeEditor.askAi.generationFailedUnknown")
    else if (z =? 413)%Z
    then Some (baseText "codeNodeEditor.askAi.generationFailedTooLarge")
    else if (z =? 429)%Z
    then Some (baseText "codeNodeEditor.askAi.generationFailedRate")
    else if (z =? 500)%Z
    then Some (baseText "codeNodeEditor.askAi.generationFailedUnknown")
    else None.
Proof. reflexivity. Qed.

(** A status that is not a number, an absent one included, gets the generic
    message. *)
Lemma getErrorMessageByStatusCode_not_a_number (statusCode : JsVal) :
  (forall z, statusCode <> JNum z) ->
  getErrorMessageByStatusCode statusCode =
    baseText "codeNodeEditor.askAi.generationFailedUnknown".
Proof.
  intros Hnum. unfold getErrorMessageByStatusCode, errorMessages_at.
  destruct statusCode; try reflexivity.
  exfalso. eapply Hnum. reflexivity.
Qed.

(** C4: with non-empty translations of the two specific messages, 413 is
    classified as "too large", 429 as "rate", and every other status (400,
    500, any other number, [undefined], [null], ...) as the generic failure. *)
Theorem getErrorMessageByStatusCode_classifies (statusCode : JsVal) :
  baseText "codeNodeEditor.askAi.generationFailedTooLarge" <> "" ->
  baseText "codeNodeEditor.askAi.generationFailedRate" <> "" ->
  (statusCode = JNum 413 ->
   getErrorMessageByStatusCode statusCode =
     baseText "codeNodeEditor.askAi.generationFailedTooLarge")
  /\ (statusCode = JNum 429 ->
      getErrorMessageByStatusCode statusCode =
        baseText "codeNodeEditor.askAi.generationFailedRate")
  /\ (statusCode <> JNum 413 -> statusCode <> JNum 429 ->
      getErrorMessageByStatusCode statusCode =
        baseText "codeNodeEditor.askAi.generationFailedUnknown")
  /\ getErrorMessageByStatusCode (JNum 400) =
       baseText "codeNodeEditor.askAi.generationFailedUnknown"
  /\ getErrorMessageByStatusCode (JNum 500) =
       baseText "codeNodeEditor.askAi.generationFailedUnknown"
  /\ getErrorMessageByStatusCode JUndefined =
       baseText "codeNodeEditor.askAi.generationFailedUnknown".
Proof.
  intros Hlarge Hrate. repeat split.
  - intros ->. unfold getErrorMessageByStatusCode. cbn.
    now apply str_or_nonempty.
  - intros ->. unfold getErrorMessageByStatusCode. cbn.
    now apply str_or_nonempty.
  - intros H413 H429. destruct statusCode as [| | b | z | fields];
      try (apply getErrorMessageByStatusCode_not_a_number; congruence).
    unfold getErrorMessageByStatusCode, errorMessages_at.
    rewrite record_get_errorMessages.
    destruct (Z.eqb_spec z 400); [apply str_or_same |].
    destruct (Z.eqb_spec z 413); [congruence |].
    destruct (Z.eqb_spec z 429); [congruence |].
    destruct (Z.eqb_spec z 500); [apply str_or_same | reflexivity].
  - unfold getErrorMessageByStatusCode. cbn. apply str_or_same.
  - unfold getErrorMessageByStatusCode. cbn. apply str_or_same.
Qed.

(** *** Reading the status of a caught error *)

(** The direct field wins when it is truthy. *)
Lemma error_status_direct (fields : list (string * JsVal)) (v : JsVal) :
  Js.assoc "httpStatusCode" fields = Some v ->
  Js.truthy v = true ->
  error_status (JObj fields) = Normal v.
Proof.
  intros Hget Htruthy. unfold error_status. cbn. rewrite Hget. cbn.
  now rewrite Htruthy.
Qed.

(** Without a truthy direct field the nested one is read, provided
    [response] is an object; a missing [status] then reads as [undefined]. *)
Lemma error_status_nested (fields response : list (string * JsVal)) :
  Js.truthy (default JUndefined (Js.assoc "httpStatusCode" fields)) = false ->
  Js.assoc "response" fields = Some (JObj response) ->
  error_status (JObj fields) =
    Normal (default JUndefined (Js.assoc "status" response)).
Proof.
  intros Hfalsy Hresp. unfold error_status, error_response_status. cbn.
  rewrite Hfalsy, Hresp. reflexivity.
Qed.

(** An error object that has neither a truthy [httpStatusCode] nor a
    [response] makes the status expression throw a [TypeError]: the optional
    chaining guards [error], not [error.response]. *)
Lemma error_status_without_response (fields : list (string * JsVal)) :
  Js.truthy (default JUndefined (Js.assoc "httpStatusCode" fields)) = false ->
  Js.assoc "response" fields = None ->
  error_status (JObj fields) = Throw TypeError.
Proof.
  intros Hfalsy Hresp. unfold error_status, error_response_status. cbn.
  rewrite Hfalsy, Hresp. reflexivity.
Qed.

(** A rejection with [undefined] or [null] throws on the first read. *)
Lemma error_status_throws_on_nullish (error : JsVal) :
  Js.nullish error = true -> error_status error = Throw TypeError.
Proof. destruct error; cbn; congruence. Qed.

(** *** Submit enablement *)

Lemma isEachItemMode_true (ndv : NDVStore) :
  isEachItemMode ndv = true <->
  exists node, activeNode ndv = Some node
               /\ parameters_mode node = Some "runOnceForEachItem".
Proof.
  unfold isEachItemMode. split.
  - destruct (activeNode ndv) as [node |]; [| discriminate].
    destruct (parameters_mode node) as [m |] eqn:Hm; [| discriminate].
    intros Heq. apply String.eqb_eq in Heq. subst m. eauto.
  - intros (node & -> & ->). reflexivity.
Qed.

Lemma hasExecutionData_true (ndv : NDVStore) :
  hasExecutionData ndv = true <->
  exists item items, ndvInputData ndv = Some (item :: items).
Proof.
  unfold hasExecutionData. split.
  - destruct (ndvInputData ndv) as [[| item items] |]; cbn;
      try discriminate. eauto.
  - intros (item & items & ->). reflexivity.
Qed.

(** C2 (as the code has it): submission is enabled exactly when the mode
    is not "runOnceForEachItem", the prompt has at least
    [ASK_AI_MIN_PROMPT_LENGTH] characters and the NDV input data is not empty.
    A shorter prompt or the each-item mode disables it. *)
Theorem isSubmitEnabled_iff (ndv : NDVStore) (c : Component) :
  (isSubmitEnabled ndv c = true <->
   isEachItemMode ndv = false
   /\ (ASK_AI_MIN_PROMPT_LENGTH <= String.length (prompt c))%nat
   /\ exists item items, ndvInputData ndv = Some (item :: items))
  /\ ((String.length (prompt c) < ASK_AI_MIN_PROMPT_LENGTH)%nat ->
      isSubmitEnabled ndv c = false)
  /\ ((exists node, activeNode ndv = Some node
                    /\ parameters_mode node = Some "runOnceForEachItem") ->
      isSubmitEnabled ndv c = false).
Proof.
  only_mentioned. unfold isSubmitEnabled. split; [| split].
  - rewrite !andb_true_iff, negb_true_iff, Nat.leb_le, hasExecutionData_true.
    tauto.
  - intros Hshort. apply Nat.leb_gt in Hshort. rewrite Hshort.
    now rewrite andb_false_r.
  - intros Hmode. apply isEachItemMode_true in Hmode. now rewrite Hmode.
Qed.

Lemma repeat_char_length (c : ascii) (n : nat) :
  String.length (repeat_char c n) = n.
Proof. induction n as [| k IH]; cbn; congruence. Qed.

(** Whatever the two bounds are, some state with a prompt longer than
    [ASK_AI_MAX_PROMPT_LENGTH] and without any ancestor schema has
    submission enabled. *)
Lemma isSubmitEnabled_ignores_max_and_schema (item : INodeExecutionData) :
  exists (ndv : NDVStore) (c : Component),
    isSubmitEnabled ndv c = true
    /\ (ASK_AI_MAX_PROMPT_LENGTH < String.length (prompt c))%nat
    /\ inputSchema (getSchemas c) = None.
Proof.
  set (n := S (Nat.max ASK_AI_MIN_PROMPT_LENGTH ASK_AI_MAX_PROMPT_LENGTH)).
  exists (mkNDV None (Some [item])).
  exists (mkComponent 0 0 false (repeat_char "a" n) []).
  unfold isSubmitEnabled. cbn [prompt]. rewrite repeat_char_length.
  repeat split.
  - cbn. rewrite andb_true_r. apply Nat.leb_le. unfold n. lia.
  - unfold n. lia.
Qed.

(** *** Ancestor extraction *)

Lemma existsb_eqb_In (n : string) (l : list string) :
  existsb (String.eqb n) l = true <-> In n l.
Proof.
  rewrite existsb_exists. split.
  - intros (m & Hin & Heq). apply String.eqb_eq in Heq. now subst.
  - intros Hin. exists n. split; [assumption | apply String.eqb_refl].
Qed.

Lemma existsb_cn_name (m : string) (pre : list IConnectedNode) :
  existsb (fun node => String.eqb (cn_name node) m) pre =
  existsb (String.eqb m) (map cn_name pre).
Proof.
  induction pre as [| y pre IH]; [reflexivity |].
  cbn. now rewrite IH, (String.eqb_sym m).
Qed.

(** With [x] at position [length pre], [findIndex] returns that position
    exactly when nothing before [x] satisfies the predicate. *)
Lemma findIndex_from_first {A} (p : A -> bool) (pre : list A) (x : A)
      (rest : list A) (k : Z) :
  p x = true ->
  (JsArray.findIndex_from p (pre ++ x :: rest) k =? k + Z.of_nat (length pre))%Z
  = negb (existsb p pre).
Proof.
  intros Hx. revert k.
  induction pre as [| y pre IH]; intros k; cbn [app length existsb].
  - cbn [JsArray.findIndex_from]. rewrite Hx. cbn. apply Z.eqb_eq. lia.
  - cbn [JsArray.findIndex_from]. destruct (p y) eqn:Hy; cbn [orb negb].
    + apply Z.eqb_neq. lia.
    + rewrite <- (IH (k + 1)%Z). f_equal. lia.
Qed.

Lemma keep_first_In (seen l : list string) (x : string) :
  In x (keep_first seen l) <-> In x l /\ ~ In x seen.
Proof.
  only_mentioned.
  revert seen. induction l as [| n rest IH]; intros seen; cbn.
  - tauto.
  - destruct (existsb (String.eqb n) seen) eqn:Hseen.
    + apply existsb_eqb_In in Hseen. rewrite IH.
      split; [tauto |]. intros [[-> | Hin] Hnot]; tauto.
    + assert (Hn : ~ In n seen).
      { intros Hin. apply existsb_eqb_In in Hin. congruence. }
      cbn. rewrite IH. cbn.
      destruct (String.eqb_spec n x) as [-> | Hne]; tauto.
Qed.

Lemma keep_first_NoDup (seen l : list string) : List.NoDup (keep_first seen l).
Proof.
  only_mentioned.
  revert seen. induction l as [| n rest IH]; intros seen; cbn.
  - constructor.
  - destruct (existsb (String.eqb n) seen); [apply IH |].
    constructor; [| apply IH].
    rewrite keep_first_In. cbn. tauto.
Qed.

(** The list [seen] may differ from the names already passed over only in
    the active node's name, which is never looked up. *)
Lemma filter_from_keep_first (active : string) (l pre : list IConnectedNode)
      (seen : list string) :
  (forall n, n <> active -> (In n seen <-> In n (map cn_name pre))) ->
  map cn_name
    (JsArray.filter_from
       (fun n i nodes =>
          negb (String.eqb (cn_name n) active)
          && (JsArray.findIndex
                (fun node => String.eqb (cn_name node) (cn_name n)) nodes =? i)%Z)
       (pre ++ l) l (Z.of_nat (length pre)))
  = keep_first seen
      (List.filter (fun n => negb (String.eqb n active)) (map cn_name l)).
Proof.
  only_mentioned.
  revert pre seen. induction l as [| x l IH]; intros pre seen Hseen.
  - reflexivity.
  - cbn [JsArray.filter_from map List.filter]. unfold JsArray.findIndex.
    pose proof (findIndex_from_first
                  (fun node => String.eqb (cn_name node) (cn_name x))
                  pre x l 0 (String.eqb_refl _)) as Hidx.
    rewrite Z.add_0_l in Hidx. rewrite Hidx, existsb_cn_name. clear Hidx.
    assert (Hnext : (Z.of_nat (length pre) + 1)%Z
                    = Z.of_nat (length (pre ++ [x]))).
    { rewrite length_app. cbn. lia. }
    assert (Hwhole : pre ++ x :: l = (pre ++ [x]) ++ l).
    { now rewrite <- app_assoc. }
    rewrite Hnext, Hwhole.
    destruct (String.eqb_spec (cn_name x) active) as [Hact | Hact];
      cbn [negb andb].
    + apply IH. intros n Hn. rewrite (Hseen n Hn), map_app, in_app_iff. cbn.
      split; [tauto |]. intros [H | [H | []]]; [assumption | congruence].
    + cbn [keep_first].
      destruct (existsb (String.eqb (cn_name x)) seen) eqn:Hx.
      * assert (Hpre : existsb (String.eqb (cn_name x)) (map cn_name pre) = true).
        { apply existsb_eqb_In, (Hseen _ Hact), existsb_eqb_In, Hx. }
        rewrite Hpre. cbn [negb]. apply IH.
        intros n Hn. rewrite (Hseen n Hn), map_app, in_app_iff. cbn.
        split; [tauto |]. intros [H | [<- | []]]; [assumption |].
        apply (Hseen _ Hact), existsb_eqb_In, Hx.
      * assert (Hpre : existsb (String.eqb (cn_name x)) (map cn_name pre) = false).
        { destruct (existsb (String.eqb (cn_name x)) (map cn_name pre)) eqn:E;
            [| reflexivity].
          apply existsb_eqb_In, (Hseen _ Hact), existsb_eqb_In in E.
          congruence. }
        rewrite Hpre. cbn [negb map]. f_equal. apply IH.
        intros n Hn. rewrite map_app, in_app_iff. cbn.
        rewrite (Hseen n Hn). tauto.
Qed.

Lemma non_null_resolved (ws : WorkflowsStore) (l : list IConnectedNode) :
  (forall n, In n l ->
     exists node, getNodeByName ws (cn_name n) = Some node
                  /\ name node = cn_name n) ->
  map name (JsArray.non_null (map (fun n => getNodeByName ws (cn_name n)) l))
  = map cn_name l.
Proof.
  induction l as [| x l IH]; intros Hres; [reflexivity |].
  destruct (Hres x (or_introl eq_refl)) as (node & Hnode & Hname).
  cbn. rewrite Hnode. cbn. rewrite Hname. f_equal.
  apply IH. intros n Hin. apply Hres. now right.
Qed.

Lemma filter_from_In {A} (p : A -> Z -> list A -> bool) (whole l : list A)
      (i : Z) (x : A) :
  In x (JsArray.filter_from p whole l i) -> In x l.
Proof.
  only_mentioned.
  revert i. induction l as [| y l IH]; intros i; cbn; [tauto |].
  destruct (p y i whole); cbn; intros H; [destruct H |]; eauto.
Qed.

(** C6: when the store resolves every listed ancestor to the node of that
    name, the names of [getParentNodes] are the listed names without the
    active node's, each kept at its first occurrence and in the listed
    order; so the active node is absent and no name occurs twice. *)
Theorem getParentNodes_ancestors (ndv : NDVStore) (ws : WorkflowsStore)
        (active : INodeUi) (workflow : Workflow) :
  activeNode ndv = Some active ->
  getCurrentWorkflow ws = Some workflow ->
  (forall n, In n (getParentNodesByDepth workflow (name active)) ->
     exists node, getNodeByName ws (cn_name n) = Some node
                  /\ name node = cn_name n) ->
  let listed := map cn_name (getParentNodesByDepth workflow (name active)) in
  let names := map name (getParentNodes ndv ws) in
  names = ancestors_spec (name active) listed
  /\ ~ In (name active) names
  /\ List.NoDup names
  /\ (forall n, In n names <-> In n listed /\ n <> name active).
Proof.
  only_mentioned.
  intros Hactive Hworkflow Hres listed names.
  assert (Hnames : names = ancestors_spec (name active) listed).
  { unfold names, getParentNodes. rewrite Hactive, Hworkflow.
    rewrite non_null_resolved.
    - unfold JsArray.filter, ancestors_spec, listed.
      apply (filter_from_keep_first (name active) _ [] []).
      intros n _. cbn. tauto.
    - intros n Hin. apply Hres. eapply filter_from_In. exact Hin. }
  assert (Hin : forall n, In n names <-> In n listed /\ n <> name active).
  { intros n. rewrite Hnames. unfold ancestors_spec.
    rewrite keep_first_In, filter_In, negb_true_iff. cbn.
    destruct (String.eqb_spec n (name active)); split; intros; try tauto;
      intuition congruence. }
  split; [exact Hnames | split; [| split; [| exact Hin]]].
  - intros Habs. apply Hin in Habs. tauto.
  - rewrite Hnames. apply keep_first_NoDup.
Qed.

(** *** Schema extraction *)

Lemma schema_of_node_name (node : INodeUi) :
  nodeName (schema_of_node node) = name node.
Proof. unfold schema_of_node. cbn. now destruct (name node). Qed.

(** Shifting a filtered list splits the original one at its first element
    that passes the filter. *)
Lemma shift_filter_split {A} (f : A -> bool) (l : list A) :
  match JsArray.shift (List.filter f l) with
  | (Some first, others) =>
      exists before after,
        l = before ++ first :: after
        /\ Forall (fun x => f x = false) before
        /\ f first = true
        /\ others = List.filter f after
  | (None, others) =>
      Forall (fun x => f x = false) l /\ others = []
  end.
Proof.
  induction l as [| x l IH]; cbn.
  - split; [constructor | reflexivity].
  - destruct (f x) eqn:Hx; cbn.
    + exists [], l. repeat split; [constructor | assumption].
    + destruct (JsArray.shift (List.filter f l)) as [[first |] others].
      * destruct IH as (before & after & -> & Hbefore & Hfirst & ->).
        exists (x :: before), after. repeat split; try assumption.
        now constructor.
      * destruct IH as [Hall ->]. split; [now constructor | reflexivity].
Qed.

Lemma schema_of_node_pair (node : INodeUi) :
  schema_of_node node =
    mkNamed (name node)
            (getSchemaForExecutionData
               (executionDataToJson (getInputDataWithPinned node)) true).
Proof. unfold schema_of_node. cbn. now destruct (name node). Qed.

Lemma ltb_0_false (n : nat) : (0 <? n)%nat = false <-> n = 0%nat.
Proof. only_mentioned. rewrite Nat.ltb_ge. lia. Qed.

(** C5: [getSchemas] pairs every parent node's name with the schema
    inferred from that node's input data (pinned data first), in the order
    of [parentNodes], and keeps the pairs whose schema has a [value] of
    positive length.  The primary input schema is the first such pair (none
    when every schema is empty), everything before it being empty, and the
    auxiliary list holds the non-empty pairs that come after it, in order. *)
Theorem getSchemas_primary_and_auxiliary (c : Component) :
  let collected :=
    map (fun node =>
           mkNamed (name node)
                   (getSchemaForExecutionData
                      (executionDataToJson (getInputDataWithPinned node))
                      true))
        (parentNodes c) in
  let result := getSchemas c in
  match inputSchema result with
  | Some primary =>
      exists before after,
        collected = before ++ primary :: after
        /\ Forall (fun x => schema_value_length (schema x) = 0%nat) before
        /\ (0 < schema_value_length (schema primary))%nat
        /\ parentNodesSchemas result =
             List.filter
               (fun x => (0 <? schema_value_length (schema x))%nat) after
  | None =>
      Forall (fun x => schema_value_length (schema x) = 0%nat) collected
      /\ parentNodesSchemas result = []
  end
  /\ Forall (fun x => (0 < schema_value_length (schema x))%nat)
            (parentNodesSchemas result)
  /\ match inputSchema result with
     | Some primary => [primary]
     | None => []
     end ++ parentNodesSchemas result
     = List.filter (fun x => (0 <? schema_value_length (schema x))%nat)
                   collected
  /\ parentNodesNames result = map name (parentNodes c).
Proof.
  intros collected result.
  assert (Hcollected : map schema_of_node (parentNodes c) = collected).
  { apply map_ext, schema_of_node_pair. }
  assert (Hresult :
            result =
              let '(first, others) :=
                JsArray.shift
                  (List.filter
                     (fun x => (0 <? schema_value_length (schema x))%nat)
                     collected) in
              mkSchemas (map name (parentNodes c)) first others).
  { unfold result, getSchemas. now rewrite Hcollected. }
  pose proof (shift_filter_split
                (fun x : NamedSchema Schema =>
                   (0 <? schema_value_length (schema x))%nat)
                collected) as Hsplit.
  pose proof (fun x =>
                proj1 (filter_In
                         (fun x : NamedSchema Schema =>
                            (0 <? schema_value_length (schema x))%nat)
                         x collected)) as Hin.
  rewrite Hresult.
  destruct (List.filter
              (fun x => (0 <? schema_value_length (schema x))%nat) collected)
    as [| first others] eqn:Hfiltered;
    cbn [JsArray.shift inputSchema parentNodesSchemas parentNodesNames] in *.
  - destruct Hsplit as [Hall _].
    split; [split; [| reflexivity] | split; [constructor | split; reflexivity]].
    eapply List.Forall_impl; [| exact Hall]. intros x. apply ltb_0_false.
  - destruct Hsplit as (before & after & Hwhere & Hbefore & Hfirst & Hothers).
    split; [| split; [| split; reflexivity]].
    + exists before, after. split; [exact Hwhere |].
      split; [| split; [now apply Nat.ltb_lt | exact Hothers]].
      eapply List.Forall_impl; [| exact Hbefore]. intros x. apply ltb_0_false.
    + apply List.Forall_forall. intros x Hx.
      apply Nat.ltb_lt. apply (Hin x). now right.
Qed.

(** *** The loading animation *)

(** What one run of [step] does to the world: [l'] is the closure after the
    run. *)
Lemma step_run (l : Loop) (timestamp : Q) (w : World) :
  exists l' : Loop,
    lastPhraseChange l' =
      (if Qeq_bool (lastPhraseChange l) 0
          || Qle_bool 2000 (timestamp - lastPhraseChange l)
       then timestamp else lastPhraseChange l)
    /\ fst (step l timestamp w) = Normal tt
    /\ isLoading (component (snd (step l timestamp w)))
       = isLoading (component w)
    /\ frames (snd (step l timestamp w)) =
         frames w ++
         (if isLoading (component w)
             && (Qlt_bool (loaderProgress (component (snd (step l timestamp w)))) 100
                 || Qlt_bool timestamp (lastPhraseChange l' + 2000))
          then [l'] else []).
Proof.
  destruct w as [[idx progress loading p nodes] ? ? ? ? ? fs ? ?].
  destruct l as [st last].
  exists (mkLoop
            (Some match st with
                  | None => timestamp
                  | Some s => if Qeq_bool s 0 then timestamp else s
                  end)
            (if Qeq_bool last 0 || Qle_bool 2000 (timestamp - last)
             then timestamp else last)).
  run_monad.
  destruct (Qeq_bool last 0 || Qle_bool 2000 (timestamp - last));
    destruct loading; run_monad; repeat case_if; run_monad;
    rewrite ?app_nil_r; repeat split; (reflexivity || congruence).
Qed.

Lemma untouched_refl (w : World) : untouched_by_frames w w.
Proof. repeat split. Qed.

Lemma untouched_trans (w1 w2 w3 : World) :
  untouched_by_frames w1 w2 -> untouched_by_frames w2 w3 ->
  untouched_by_frames w1 w3.
Proof.
  unfold untouched_by_frames. intros H12 H23.
  repeat match goal with H : _ /\ _ |- _ => destruct H end.
  repeat split; congruence.
Qed.

Lemma step_untouched (l : Loop) (timestamp : Q) (w : World) :
  untouched_by_frames w (snd (step l timestamp w)).
Proof.
  destruct w as [[idx progress loading p nodes] ? ? ? ? ? fs ? ?].
  destruct l as [st last]. unfold untouched_by_frames. run_monad.
  destruct (Qeq_bool last 0 || Qle_bool 2000 (timestamp - last));
    destruct loading; run_monad; repeat case_if; run_monad;
    repeat split.
Qed.

Lemma run_steps_normal (pending : list Loop) (timestamp : Q) (w : World) :
  fst (run_steps pending timestamp w) = Normal tt
  /\ untouched_by_frames w (snd (run_steps pending timestamp w)).
Proof.
  revert w. induction pending as [| l pending IH]; intros w.
  - split; [reflexivity | apply untouched_refl].
  - cbn [run_steps]. unfold bind.
    destruct (step_run l timestamp w) as (_ & _ & Hnormal & _).
    pose proof (step_untouched l timestamp w) as Hstep.
    destruct (step l timestamp w) as [[[] | e] w1]; cbn [fst snd] in *;
      [| discriminate].
    destruct (IH w1) as [Hfst Hrest]. split; [exact Hfst |].
    eapply untouched_trans; eassumption.
Qed.

Lemma animationFrame_normal (timestamp : Q) (w : World) :
  fst (animationFrame timestamp w) = Normal tt
  /\ untouched_by_frames w (snd (animationFrame timestamp w)).
Proof.
  unfold animationFrame. run_monad.
  match goal with
  | |- context [run_steps ?p ?t ?w0] =>
      destruct (run_steps_normal p t w0) as [Hfst Hrest]
  end.
  split; [exact Hfst |].
  eapply untouched_trans; [| exact Hrest]. repeat split.
Qed.

Lemma animationFrames_normal (timestamps : list Q) (w : World) :
  fst (animationFrames timestamps w) = Normal tt
  /\ untouched_by_frames w (snd (animationFrames timestamps w)).
Proof.
  revert w. induction timestamps as [| t rest IH]; intros w.
  - split; [reflexivity | apply untouched_refl].
  - cbn [animationFrames]. unfold bind.
    destruct (animationFrame_normal t w) as [Hnormal Hframe].
    destruct (animationFrame t w) as [[[] | e] w1]; cbn [fst snd] in *;
      [| discriminate].
    destruct (IH w1) as [Hfst Hrest]. split; [exact Hfst |].
    eapply untouched_trans; eassumption.
Qed.

(** While [isLoading] is false the callbacks that run request nothing. *)
Lemma run_steps_not_loading (pending : list Loop) (timestamp : Q) (w : World) :
  isLoading (component w) = false ->
  frames (snd (run_steps pending timestamp w)) = frames w.
Proof.
  revert w. induction pending as [| l pending IH]; intros w Hidle.
  - reflexivity.
  - cbn [run_steps]. unfold bind.
    destruct (step_run l timestamp w) as (l' & _ & Hnormal & Hloading & Hframes).
    rewrite Hidle in Hframes, Hloading. cbn [andb] in Hframes.
    rewrite app_nil_r in Hframes.
    destruct (step l timestamp w) as [[[] | e] w1]; cbn [fst snd] in *;
      [| discriminate].
    rewrite (IH w1 Hloading). exact Hframes.
Qed.

Lemma animationFrame_idle (timestamp : Q) (w : World) :
  frames w = [] -> animationFrame timestamp w = (Normal tt, w).
Proof.
  destruct w. cbn [frames]. intros ->. reflexivity.
Qed.

Lemma animationFrames_idle (timestamps : list Q) (w : World) :
  frames w = [] -> animationFrames timestamps w = (Normal tt, w).
Proof.
  intros Hidle. induction timestamps as [| t rest IH]; [reflexivity |].
  cbn [animationFrames]. unfold bind.
  now rewrite (animationFrame_idle t w Hidle).
Qed.



(** *** The submission flow *)

(** The pending call logs its request, lets the frames run and settles as
    the outside decides. *)
Lemma generateCodeForPrompt_run (io : Interaction) (body : GenerationRequest)
      (w : World) :
  exists w1,
    generateCodeForPrompt io body w =
      (match apiOutcome io with
       | Resolved r => Normal r
       | Rejected error => Throw (Rejection error)
       end, w1)
    /\ untouched_by_frames (snd (send body w)) w1.
Proof.
  unfold generateCodeForPrompt.
  destruct (animationFrames_normal (framesWhileWaiting io) (snd (send body w)))
    as [Hnormal Huntouched].
  unfold bind at 1. cbn [send modify fst snd] in *. unfold bind.
  destruct (animationFrames (framesWhileWaiting io) _) as [[[] | e] w1];
    cbn [fst snd] in *; [| discriminate].
  exists w1. split; [| exact Huntouched].
  destruct (apiOutcome io); reflexivity.
Qed.

Lemma run_timers_isLoading (pending : list (Z * TimerCallback)) (w : World) :
  pending <> [] ->
  isLoading (component (snd (run_timers pending w))) = false.
Proof.
  revert w. induction pending as [| [delay []] rest IH]; intros w Hne;
    [congruence |].
  cbn [run_timers run_timer]. run_ops.
  destruct rest as [| next rest]; [reflexivity |].
  apply IH. discriminate.
Qed.

Lemma timersExpire_isLoading (w : World) :
  timeouts w <> [] ->
  isLoading (component (snd (timersExpire w))) = false.
Proof.
  intros Hpending. unfold timersExpire. run_ops.
  now apply run_timers_isLoading.
Qed.

(** The [try] block when the call resolves. *)
Lemma onSubmit_try_resolved (io : Interaction) (schemas : Schemas Schema)
      (r : Generated) (w : World) :
  apiOutcome io = Resolved r ->
  exists w',
    onSubmit_try io schemas w = (Normal tt, w')
    /\ emitted w' = emitted w ++ [EmitFinishedLoading; EmitReplaceCode (code r)]
    /\ toasts w' =
         toasts w ++
         [mkToast "success"
                  (baseText "codeNodeEditor.askAi.generationCompleted") None]
    /\ tracked w' =
         tracked w ++
         [mkTracked "askAi.generationFinished" (prompt (component w))
                    (Some (code r)) (usage_total_tokens r) (Some false)
                    (Some "")]
    /\ length (requests w') = S (length (requests w))
    /\ timeouts w' = timeouts w ++ [(200%Z, SetIsLoadingFalse)]
    /\ loaderProgress (component w') = 100%Q
    /\ isLoading (component w') = isLoading (component w).
Proof.
  intros Hresolved. unfold onSubmit_try.
  unfold bind at 1. unfold gets at 1. cbn [fst snd].
  unfold bind at 1.
  match goal with
  | |- context [generateCodeForPrompt io ?body w] =>
      destruct (generateCodeForPrompt_run io body w)
        as (w1 & -> & He & Hto & Htr & Hrq & Hti & _ & Hlo & Hpr & _)
  end.
  rewrite Hresolved. cbn [send modify fst snd] in *. run_ops.
  cbn [emitted toasts tracked requests timeouts] in *.
  eexists. split; [reflexivity |]. run_ops.
  rewrite He, Hto, Htr, Hrq, Hti, Hlo, Hpr, <- !app_assoc, length_app.
  cbn. repeat split; try reflexivity. lia.
Qed.

(** The [try] block when the call rejects: nothing but the request is
    logged. *)
Lemma onSubmit_try_rejected (io : Interaction) (schemas : Schemas Schema)
      (error : JsVal) (w : World) :
  apiOutcome io = Rejected error ->
  exists w',
    onSubmit_try io schemas w = (Throw (Rejection error), w')
    /\ emitted w' = emitted w
    /\ toasts w' = toasts w
    /\ tracked w' = tracked w
    /\ length (requests w') = S (length (requests w))
    /\ timeouts w' = timeouts w
    /\ isLoading (component w') = isLoading (component w)
    /\ prompt (component w') = prompt (component w).
Proof.
  intros Hrejected. unfold onSubmit_try.
  unfold bind at 1. unfold gets at 1. cbn [fst snd].
  unfold bind at 1.
  match goal with
  | |- context [generateCodeForPrompt io ?body w] =>
      destruct (generateCodeForPrompt_run io body w)
        as (w1 & -> & He & Hto & Htr & Hrq & Hti & _ & Hlo & Hpr & _)
  end.
  rewrite Hrejected. cbn [send modify fst snd] in *.
  cbn [emitted toasts tracked requests timeouts component] in *.
  exists w1. rewrite Hrq, length_app. cbn.
  repeat split; try assumption. lia.
Qed.

(** The [catch] block when the status can be read: one error toast with
    the classified message, the telemetry call and the teardown. *)
Lemma onSubmit_catch_classifies (error status : JsVal) (w : World) :
  error_status error = Normal status ->
  exists w',
    onSubmit_catch error w = (Normal tt, w')
    /\ emitted w' = emitted w ++ [EmitFinishedLoading]
    /\ toasts w' =
         toasts w ++
         [mkToast "error" (baseText "codeNodeEditor.askAi.generationFailed")
                  (Some (getErrorMessageByStatusCode status))]
    /\ tracked w' =
         tracked w ++
         [mkTracked "askAi.generationFinished" (prompt (component w))
                    (Some "") (Some 0%Z) (Some true)
                    (Some (getErrorMessageByStatusCode status))]
    /\ requests w' = requests w
    /\ timeouts w' = timeouts w ++ [(200%Z, SetIsLoadingFalse)]
    /\ loaderProgress (component w') = 100%Q
    /\ isLoading (component w') = isLoading (component w).
Proof.
  intros Hstatus. unfold onSubmit_catch. rewrite Hstatus. run_ops.
  eexists. split; [reflexivity |]. run_ops. repeat split.
Qed.

(** The [catch] block when reading the status throws: the exception leaves
    the block before anything is shown, tracked or torn down. *)
Lemma onSubmit_catch_throws (error : JsVal) (e : Thrown) (w : World) :
  error_status error = Throw e ->
  onSubmit_catch error w = (Throw e, w).
Proof.
  intros Hstatus. unfold onSubmit_catch. rewrite Hstatus. reflexivity.
Qed.

(** Up to the [try] statement, when the flow gets that far. *)
Lemma onSubmit_reaches_try (ndv : NDVStore) (io : Interaction) (w : World)
      (node : INodeUi) :
  activeNode ndv = Some node ->
  (hasChanges io = true -> alertAnswer io <> "cancel") ->
  exists w0,
    onSubmit ndv io w =
      try_catch (onSubmit_try io (getSchemas (component w))) onSubmit_catch w0
    /\ emitted w0 = emitted w ++ [EmitStartedLoading]
    /\ toasts w0 = toasts w
    /\ tracked w0 =
         tracked w ++
         [mkTracked "ask.generationClicked" (prompt (component w))
                    None None None None]
    /\ requests w0 = requests w
    /\ timeouts w0 = timeouts w
    /\ frames w0 = frames w ++ [mkLoop None 0]
    /\ loaderProgress (component w0) = 0%Q
    /\ isLoading (component w0) = true
    /\ prompt (component w0) = prompt (component w).
Proof.
  intros Hactive Hconfirmed. unfold onSubmit. rewrite Hactive.
  assert (Hgo : (if hasChanges io
                 then String.eqb (alertAnswer io) "cancel"
                 else false) = false).
  { destruct (hasChanges io); [| reflexivity].
    apply String.eqb_neq. now apply Hconfirmed. }
  eexists. split.
  - destruct (hasChanges io); [rewrite Hgo |]; run_ops; reflexivity.
  - run_ops. repeat split.
Qed.

(** C7: when the call resolves with [r], [onSubmit] returns normally
    having emitted exactly one "replaceCode" with [code r], shown exactly the
    success toast, set the progress to 100 and scheduled, 200 ms ahead, the
    timer that makes [isLoading] false. *)
Theorem onSubmit_success (ndv : NDVStore) (io : Interaction) (w : World)
        (node : INodeUi) (r : Generated) :
  activeNode ndv = Some node ->
  (hasChanges io = true -> alertAnswer io <> "cancel") ->
  apiOutcome io = Resolved r ->
  let w' := snd (onSubmit ndv io w) in
  fst (onSubmit ndv io w) = Normal tt
  /\ emitted w' =
       emitted w ++
       [EmitStartedLoading; EmitFinishedLoading; EmitReplaceCode (code r)]
  /\ toasts w' =
       toasts w ++
       [mkToast "success"
                (baseText "codeNodeEditor.askAi.generationCompleted") None]
  /\ length (requests w') = S (length (requests w))
  /\ loaderProgress (component w') = 100%Q
  /\ isLoading (component w') = true
  /\ timeouts w' = timeouts w ++ [(200%Z, SetIsLoadingFalse)]
  /\ isLoading (component (snd (timersExpire w'))) = false.
Proof.
  intros Hactive Hconfirmed Hresolved w'.
  destruct (onSubmit_reaches_try ndv io w node Hactive Hconfirmed)
    as (w0 & Hrun & He0 & Hto0 & _ & Hrq0 & Hti0 & _ & _ & Hlo0 & _).
  destruct (onSubmit_try_resolved io (getSchemas (component w)) r w0 Hresolved)
    as (w1 & Htry & He1 & Hto1 & _ & Hrq1 & Hti1 & Hpg1 & Hlo1).
  assert (Hw' : onSubmit ndv io w = (Normal tt, w1)).
  { rewrite Hrun. unfold try_catch. now rewrite Htry. }
  unfold w'. rewrite Hw'. cbn [fst snd].
  rewrite He1, He0, Hto1, Hto0, Hrq1, Hrq0, Hti1, Hti0, Hlo1, Hlo0,
    <- !app_assoc.
  repeat split; try assumption.
  apply timersExpire_isLoading. rewrite Hti1. now destruct (timeouts w0).
Qed.

(** When the call rejects with an error whose status can be read,
    [onSubmit] returns normally with no "replaceCode", exactly one error
    toast carrying the classified message, and the same teardown. *)
Lemma onSubmit_failure_with_status (ndv : NDVStore) (io : Interaction)
      (w : World) (node : INodeUi) (error status : JsVal) :
  activeNode ndv = Some node ->
  (hasChanges io = true -> alertAnswer io <> "cancel") ->
  apiOutcome io = Rejected error ->
  error_status error = Normal status ->
  let w' := snd (onSubmit ndv io w) in
  fst (onSubmit ndv io w) = Normal tt
  /\ emitted w' = emitted w ++ [EmitStartedLoading; EmitFinishedLoading]
  /\ toasts w' =
       toasts w ++
       [mkToast "error" (baseText "codeNodeEditor.askAi.generationFailed")
                (Some (getErrorMessageByStatusCode status))]
  /\ loaderProgress (component w') = 100%Q
  /\ timeouts w' = timeouts w ++ [(200%Z, SetIsLoadingFalse)]
  /\ isLoading (component (snd (timersExpire w'))) = false.
Proof.
  intros Hactive Hconfirmed Hrejected Hstatus w'.
  destruct (onSubmit_reaches_try ndv io w node Hactive Hconfirmed)
    as (w0 & Hrun & He0 & Hto0 & _ & _ & Hti0 & _).
  destruct (onSubmit_try_rejected io (getSchemas (component w)) error w0
              Hrejected)
    as (w1 & Htry & He1 & Hto1 & _ & _ & Hti1 & _).
  destruct (onSubmit_catch_classifies error status w1 Hstatus)
    as (w2 & Hcatch & He2 & Hto2 & _ & _ & Hti2 & Hpg2 & _).
  assert (Hw' : onSubmit ndv io w = (Normal tt, w2)).
  { rewrite Hrun. unfold try_catch. rewrite Htry. exact Hcatch. }
  unfold w'. rewrite Hw'. cbn [fst snd].
  rewrite He2, He1, He0, Hto2, Hto1, Hto0, Hti2, Hti1, Hti0, <- !app_assoc.
  repeat split; try assumption.
  apply timersExpire_isLoading. rewrite Hti2. now destruct (timeouts w1).
Qed.

(** C1: for an error object with neither a truthy [httpStatusCode] nor a
    [response], reading the status throws a [TypeError] instead of yielding
    an unknown status, so the [catch] block classifies nothing: it is left
    with the world as it found it. *)
Theorem error_status_throws_without_response
        (fields : list (string * JsVal)) (w : World) :
  Js.truthy (default JUndefined (Js.assoc "httpStatusCode" fields)) = false ->
  Js.assoc "response" fields = None ->
  error_status (JObj fields) = Throw TypeError
  /\ onSubmit_catch (JObj fields) w = (Throw TypeError, w).
Proof.
  intros Hfalsy Hresp.
  pose proof (error_status_without_response fields Hfalsy Hresp) as Hthrow.
  split; [exact Hthrow | now apply onSubmit_catch_throws].
Qed.

(** C3: when the call rejects with such an error, [onSubmit] itself ends
    with the [TypeError]: no toast is shown, no timer is scheduled and
    [isLoading] is left true. *)
Theorem onSubmit_rejection_without_status_throws
        (ndv : NDVStore) (io : Interaction) (w : World) (node : INodeUi)
        (fields : list (string * JsVal)) :
  activeNode ndv = Some node ->
  (hasChanges io = true -> alertAnswer io <> "cancel") ->
  apiOutcome io = Rejected (JObj fields) ->
  Js.truthy (default JUndefined (Js.assoc "httpStatusCode" fields)) = false ->
  Js.assoc "response" fields = None ->
  let w' := snd (onSubmit ndv io w) in
  fst (onSubmit ndv io w) = Throw TypeError
  /\ emitted w' = emitted w ++ [EmitStartedLoading]
  /\ toasts w' = toasts w
  /\ timeouts w' = timeouts w
  /\ isLoading (component w') = true.
Proof.
  intros Hactive Hconfirmed Hrejected Hfalsy Hresp w'.
  destruct (onSubmit_reaches_try ndv io w node Hactive Hconfirmed)
    as (w0 & Hrun & He0 & Hto0 & _ & _ & Hti0 & _ & _ & Hlo0 & _).
  destruct (onSubmit_try_rejected io (getSchemas (component w)) (JObj fields)
              w0 Hrejected)
    as (w1 & Htry & He1 & Hto1 & _ & _ & Hti1 & Hlo1 & _).
  assert (Hw' : onSubmit ndv io w = (Throw TypeError, w1)).
  { rewrite Hrun. unfold try_catch. rewrite Htry. cbn [caught].
    apply onSubmit_catch_throws.
    now apply error_status_without_response. }
  unfold w'. rewrite Hw'. cbn [fst snd].
  rewrite He1, He0, Hto1, Hto0, Hti1, Hti0, Hlo1, Hlo0. repeat split.
Qed.

(** *** Draft persistence *)

Lemma append_inj_r (prefix a b : string) :
  (prefix ++ a)%string = (prefix ++ b)%string -> a = b.
Proof.
  induction prefix as [| c prefix IH]; cbn; [trivial |].
  intros Heq. injection Heq as Heq. now apply IH.
Qed.

Lemma onMounted_prompt (ndv : NDVStore) (ws : WorkflowsStore) (w : World) :
  prompt (component (snd (onMounted ndv ws w))) =
    default "" (sessionStorage w !! getSessionStoragePrompt ndv).
Proof. reflexivity. Qed.

Lemma inputEvent_storage (ndv : NDVStore) (text : string) (w : World) :
  sessionStorage (snd (inputEvent ndv text w)) =
    <[getSessionStoragePrompt ndv := text]> (sessionStorage w).
Proof. reflexivity. Qed.

(** C8: a draft stored by an input event under a node is what a later mount
    under the same node restores, also when in between a draft was stored
    under a node whose name snake-cases differently. *)
Theorem draft_round_trip (node : INodeUi)
        (data : option (list INodeExecutionData)) (ws : WorkflowsStore)
        (text : string) (w : World) :
  let ndv := mkNDV (Some node) data in
  let stored := snd (inputEvent ndv text w) in
  getSessionStoragePrompt ndv
  = ("ask_ai_prompt__" ++ snakeCase (name node))%string
  /\ prompt (component (snd (onMounted ndv ws stored))) = text
  /\ (forall (other : INodeUi) (data' : option (list INodeExecutionData))
             (text' : string),
        snakeCase (name other) <> snakeCase (name node) ->
        prompt
          (component
             (snd (onMounted ndv ws
                     (snd (inputEvent (mkNDV (Some other) data') text'
                                      stored))))) = text).
Proof.
  intros ndv stored. split; [reflexivity | split].
  - rewrite onMounted_prompt. unfold stored.
    rewrite inputEvent_storage, lookup_insert_eq. reflexivity.
  - intros other data' text' Hother.
    rewrite onMounted_prompt, inputEvent_storage. unfold stored.
    rewrite inputEvent_storage, lookup_insert_ne, lookup_insert_eq;
      [reflexivity |].
    unfold getSessionStoragePrompt, ndv. cbn [activeNode].
    intros Heq. apply append_inj_r in Heq. congruence.
Qed.

(** C10: without an active node the key is built from the empty name, so
    (as [snakeCase] maps the empty string to itself) input events write the
    slot "ask_ai_prompt__" and a mount restores the prompt from it. *)
Theorem no_active_node_shared_slot
        (data : option (list INodeExecutionData)) (ws : WorkflowsStore)
        (text : string) (w : World) :
  snakeCase "" = "" ->
  let ndv := mkNDV None data in
  getSessionStoragePrompt ndv = "ask_ai_prompt__"
  /\ sessionStorage (snd (inputEvent ndv text w)) =
       <["ask_ai_prompt__" := text]> (sessionStorage w)
  /\ prompt (component (snd (onMounted ndv ws w))) =
       default "" (sessionStorage w !! "ask_ai_prompt__")
  /\ prompt (component (snd (onMounted ndv ws (snd (inputEvent ndv text w)))))
     = text.
Proof.
  intros Hempty ndv.
  assert (Hkey : getSessionStoragePrompt ndv = "ask_ai_prompt__").
  { unfold getSessionStoragePrompt. cbn [activeNode ndv]. now rewrite Hempty. }
  split; [exact Hkey | split; [| split]].
  - now rewrite inputEvent_storage, Hkey.
  - now rewrite onMounted_prompt, Hkey.
  - rewrite onMounted_prompt, inputEvent_storage, lookup_insert_eq.
    reflexivity.
Qed.

(** ** Further properties of the component *)

(** *** The classified message *)

Lemma str_or_cases (s fallback : string) :
  (s <> "" /\ Js.str_or (Some s) fallback = s)
  \/ (s = "" /\ Js.str_or (Some s) fallback = fallback).
Proof. destruct s; [right | left]; split; (reflexivity || congruence). Qed.

(** X1: whatever the status value is, the message is one of the three
    texts of the table, and it is not empty as soon as the generic text is
    not: an empty specific text is replaced by the generic one. *)
Theorem getErrorMessageByStatusCode_never_blank (statusCode : JsVal) :
  In (getErrorMessageByStatusCode statusCode)
     [ baseText "codeNodeEditor.askAi.generationFailedUnknown";
       baseText "codeNodeEditor.askAi.generationFailedTooLarge";
       baseText "codeNodeEditor.askAi.generationFailedRate" ]
  /\ (baseText "codeNodeEditor.askAi.generationFailedUnknown" <> "" ->
      getErrorMessageByStatusCode statusCode <> "").
Proof.
  destruct statusCode as [| | b | z | fields];
    try (rewrite getErrorMessageByStatusCode_not_a_number
           by (intros; discriminate);
         split; [now left | trivial]).
  unfold getErrorMessageByStatusCode, errorMessages_at.
  rewrite record_get_errorMessages.
  repeat match goal with
         | |- context [if ?b then _ else _] => destruct b
         end;
    try (cbn [Js.str_or]; split; [now left | trivial]);
    match goal with
    | |- context [Js.str_or (Some ?s) ?f] =>
        destruct (str_or_cases s f) as [[Hs ->] | [Hs ->]]
    end;
    split; cbn [In]; auto.
Qed.

(** *** The tooltip and the button *)

(** X2: the tooltip has no span to show exactly when submission is enabled
    and the prompt is not empty; so whenever the button is rendered disabled,
    its tooltip names a reason, and "no input data" is the reason whenever
    the NDV input data is empty. *)
Theorem tooltip_explains_disabled_button (ndv : NDVStore) (c : Component) :
  (tooltipContent ndv c = None <->
   isSubmitEnabled ndv c = true /\ String.length (prompt c) <> 0%nat)
  /\ (isLoading c = false -> isSubmitEnabled ndv c = false ->
      exists span, controls ndv c = SubmitButton true (Some span))
  /\ (hasExecutionData ndv = false -> tooltipContent ndv c = Some NoInputData).
Proof.
  only_mentioned.
  assert (Hnone : tooltipContent ndv c = None <->
                  isSubmitEnabled ndv c = true
                  /\ String.length (prompt c) <> 0%nat).
  { unfold tooltipContent, isSubmitEnabled.
    destruct (hasExecutionData ndv); cbn [negb];
      [| rewrite andb_false_r; split; [discriminate | intros [? _]; discriminate]].
    destruct (Nat.eqb_spec (String.length (prompt c)) 0) as [Hzero | Hzero];
      [split; [discriminate | tauto] |].
    destruct (isEachItemMode ndv); cbn [negb andb];
      [split; [discriminate | intros [? _]; discriminate] |].
    rewrite andb_true_r.
    destruct (Nat.ltb_spec (String.length (prompt c)) ASK_AI_MIN_PROMPT_LENGTH)
      as [Hshort | Hlong].
    - split; [discriminate |]. intros [Hle _]. apply Nat.leb_le in Hle. lia.
    - split; [| reflexivity]. intros _. split; [| exact Hzero].
      now apply Nat.leb_le. }
  split; [exact Hnone | split].
  - intros Hidle Hdisabled. unfold controls. rewrite Hidle, Hdisabled.
    destruct (tooltipContent ndv c) as [span |] eqn:Hspan;
      [exists span; reflexivity |].
    destruct (proj1 Hnone eq_refl) as [Henabled _]. congruence.
  - intros Hdata. unfold tooltipContent. now rewrite Hdata.
Qed.

(** *** Drafts *)

(** X3: the slot is chosen by the snake-cased name alone.  For two nodes
    whose names snake-case alike, the draft typed under one is what a mount
    under the other restores; under one node the last input wins; and a
    mount that finds no slot restores the empty prompt. *)
Theorem draft_slot_is_shared_by_colliding_names
        (node other : INodeUi) (data data' : option (list INodeExecutionData))
        (ws : WorkflowsStore) (text text' : string) (w : World) :
  let ndv := mkNDV (Some node) data in
  let ndv' := mkNDV (Some other) data' in
  (snakeCase (name other) = snakeCase (name node) ->
   prompt (component (snd (onMounted ndv' ws (snd (inputEvent ndv text w)))))
   = text)
  /\ prompt
       (component
          (snd (onMounted ndv ws
                  (snd (inputEvent ndv text' (snd (inputEvent ndv text w)))))))
     = text'
  /\ (sessionStorage w !! getSessionStoragePrompt ndv = None ->
      prompt (component (snd (onMounted ndv ws w))) = "").
Proof.
  intros ndv ndv'. split; [| split].
  - intros Hsame. rewrite onMounted_prompt, inputEvent_storage.
    assert (Hkey : getSessionStoragePrompt ndv' = getSessionStoragePrompt ndv).
    { unfold getSessionStoragePrompt, ndv, ndv'. cbn [activeNode].
      now rewrite Hsame. }
    now rewrite Hkey, lookup_insert_eq.
  - now rewrite onMounted_prompt, !inputEvent_storage, lookup_insert_eq.
  - intros Habsent. now rewrite onMounted_prompt, Habsent.
Qed.

(** *** More on the submission flow *)

Lemma keeps_draft_refl (w : World) : keeps_draft w w.
Proof. repeat split. Qed.

Lemma keeps_draft_trans (w1 w2 w3 : World) :
  keeps_draft w1 w2 -> keeps_draft w2 w3 -> keeps_draft w1 w3.
Proof.
  unfold keeps_draft. intros (? & ? & ?) (? & ? & ?).
  repeat split; congruence.
Qed.

Lemma untouched_keeps_draft (w w' : World) :
  untouched_by_frames w w' -> keeps_draft w w'.
Proof.
  intros (_ & _ & _ & _ & _ & Hst & _ & Hpr & Hpn). now repeat split.
Qed.

(** The flow up to the [try] statement, with the world it reaches. *)
Lemma onSubmit_unfold (ndv : NDVStore) (io : Interaction) (w : World)
      (node : INodeUi) :
  activeNode ndv = Some node ->
  (hasChanges io = true -> alertAnswer io <> "cancel") ->
  onSubmit ndv io w =
    try_catch (onSubmit_try io (getSchemas (component w))) onSubmit_catch
      (snd (startLoading
              (snd (trackAskAI
                      (mkTracked "ask.generationClicked" (prompt (component w))
                                 None None None None) w)))).
Proof.
  intros Hactive Hconfirmed. unfold onSubmit. rewrite Hactive.
  assert (Hgo : (if hasChanges io
                 then String.eqb (alertAnswer io) "cancel"
                 else false) = false).
  { destruct (hasChanges io); [| reflexivity].
    apply String.eqb_neq. now apply Hconfirmed. }
  destruct (hasChanges io); [rewrite Hgo |]; run_ops; reflexivity.
Qed.

(** What the [try] block does to the request log, the pending frames and
    the draft, however the call settles. *)
Lemma onSubmit_try_effect (io : Interaction) (schemas : Schemas Schema)
      (w : World) :
  let w' := snd (onSubmit_try io schemas w) in
  (exists req,
     requests w' = requests w ++ [req]
     /\ question req = prompt (component w)
     /\ context_schema req = parentNodesSchemas schemas
     /\ context_inputSchema req = inputSchema schemas
     /\ n8nVersion req = versionCli io
     /\ model req =
          match getVariant io ASK_AI_EXPERIMENT_name with
          | Some variant =>
              if String.eqb variant ASK_AI_EXPERIMENT_gpt4
              then "gpt-4" else "gpt-3.5-turbo-16k"
          | None => "gpt-3.5-turbo-16k"
          end)
  /\ keeps_draft w w'
  /\ isLoading (component w') = isLoading (component w)
  /\ exists w1,
       untouched_by_frames (snd (send
                                   (mkRequest (prompt (component w))
                                      (parentNodesSchemas schemas)
                                      (inputSchema schemas)
                                      match getVariant io ASK_AI_EXPERIMENT_name with
                                      | Some variant =>
                                          if String.eqb variant ASK_AI_EXPERIMENT_gpt4
                                          then "gpt-4" else "gpt-3.5-turbo-16k"
                                      | None => "gpt-3.5-turbo-16k"
                                      end
                                      (versionCli io)) w)) w1
       /\ frames w' = frames w1
       /\ generateCodeForPrompt io
            (mkRequest (prompt (component w)) (parentNodesSchemas schemas)
               (inputSchema schemas)
               match getVariant io ASK_AI_EXPERIMENT_name with
               | Some variant =>
                   if String.eqb variant ASK_AI_EXPERIMENT_gpt4
                   then "gpt-4" else "gpt-3.5-turbo-16k"
               | None => "gpt-3.5-turbo-16k"
               end
               (versionCli io)) w
          = (match apiOutcome io with
             | Resolved r => Normal r
             | Rejected error => Throw (Rejection error)
             end, w1).
Proof.
  intros w'. subst w'. unfold onSubmit_try. run_ops.
  match goal with
  | |- context [generateCodeForPrompt io ?body w] =>
      destruct (generateCodeForPrompt_run io body w) as (w1 & Hrun & Hunt);
      pose proof Hunt as (He & Hto & Htr & Hrq & Hti & Hst & Hlo & Hpr & Hpn)
  end.
  rewrite !Hrun. cbn [send modify fst snd] in *.
  cbn [emitted toasts tracked requests timeouts sessionStorage component] in *.
  destruct (apiOutcome io) as [r | error]; run_ops.
  - split; [eexists; split; [exact Hrq | repeat split] |].
    split; [repeat split; assumption |].
    split; [assumption |]. exists w1. repeat split; assumption.
  - split; [eexists; split; [exact Hrq | repeat split] |].
    split; [repeat split; assumption |].
    split; [assumption |]. exists w1. repeat split; assumption.
Qed.

(** What the [catch] block leaves alone, whether or not it throws. *)
Lemma onSubmit_catch_effect (error : JsVal) (w : World) :
  let w' := snd (onSubmit_catch error w) in
  requests w' = requests w
  /\ frames w' = frames w
  /\ isLoading (component w') = isLoading (component w)
  /\ keeps_draft w w'.
Proof.
  intros w'. unfold w', onSubmit_catch.
  destruct (error_status error) as [status | e]; run_ops; repeat split.
Qed.

Lemma onSubmit_without_active_node (ndv : NDVStore) (io : Interaction)
      (w : World) :
  activeNode ndv = None -> onSubmit ndv io w = (Normal tt, w).
Proof. unfold onSubmit. intros ->. reflexivity. Qed.

Lemma onSubmit_cancelled (ndv : NDVStore) (io : Interaction) (w : World) :
  activeNode ndv <> None ->
  hasChanges io = true -> alertAnswer io = "cancel" ->
  onSubmit ndv io w =
    trackAskAI
      (mkTracked "ask.generationClicked" (prompt (component w))
                 None None None None) w.
Proof.
  unfold onSubmit. intros Hactive Hchanges Hcancel.
  destruct (activeNode ndv); [| congruence].
  rewrite Hchanges, Hcancel. run_ops. reflexivity.
Qed.

(** X4: the two ways [onSubmit] gives up.  Without an active node it does
    nothing at all; when the confirmation dialog is cancelled its only effect
    is the "ask.generationClicked" telemetry call: nothing is emitted, shown,
    sent or scheduled, and [isLoading] is not set. *)
Theorem onSubmit_aborts (ndv : NDVStore) (io : Interaction) (w : World) :
  (activeNode ndv = None -> onSubmit ndv io w = (Normal tt, w))
  /\ (activeNode ndv <> None ->
      hasChanges io = true -> alertAnswer io = "cancel" ->
      let w' := snd (onSubmit ndv io w) in
      fst (onSubmit ndv io w) = Normal tt
      /\ tracked w' =
           tracked w ++
           [mkTracked "ask.generationClicked" (prompt (component w))
                      None None None None]
      /\ component w' = component w
      /\ emitted w' = emitted w
      /\ toasts w' = toasts w
      /\ requests w' = requests w
      /\ timeouts w' = timeouts w
      /\ frames w' = frames w).
Proof.
  split.
  - apply onSubmit_without_active_node.
  - intros Hactive Hchanges Hcancel w'. unfold w'.
    rewrite (onSubmit_cancelled ndv io w Hactive Hchanges Hcancel).
    run_ops. repeat split.
Qed.

(** X5: when the flow reaches the call it sends exactly one request,
    however the call settles: the question is the prompt, the context is what
    [getSchemas] gives for the component at the click, the version is the
    CLI's, and the model is "gpt-4" exactly for the gpt4 variant of the
    experiment. *)
Theorem onSubmit_sends_one_request (ndv : NDVStore) (io : Interaction)
        (w : World) (node : INodeUi) :
  activeNode ndv = Some node ->
  (hasChanges io = true -> alertAnswer io <> "cancel") ->
  exists req,
    requests (snd (onSubmit ndv io w)) = requests w ++ [req]
    /\ question req = prompt (component w)
    /\ context_schema req = parentNodesSchemas (getSchemas (component w))
    /\ context_inputSchema req = inputSchema (getSchemas (component w))
    /\ n8nVersion req = versionCli io
    /\ (model req = "gpt-4" <->
        getVariant io ASK_AI_EXPERIMENT_name = Some ASK_AI_EXPERIMENT_gpt4)
    /\ (model req = "gpt-3.5-turbo-16k" <->
        getVariant io ASK_AI_EXPERIMENT_name <> Some ASK_AI_EXPERIMENT_gpt4).
Proof.
  intros Hactive Hconfirmed.
  rewrite (onSubmit_unfold ndv io w node Hactive Hconfirmed).
  set (w0 := snd (startLoading _)).
  destruct (onSubmit_try_effect io (getSchemas (component w)) w0)
    as ((req & Hreq & Hq & Hcs & Hci & Hv & Hm) & _).
  assert (Hmodel :
            (model req = "gpt-4" <->
             getVariant io ASK_AI_EXPERIMENT_name = Some ASK_AI_EXPERIMENT_gpt4)
            /\ (model req = "gpt-3.5-turbo-16k" <->
                getVariant io ASK_AI_EXPERIMENT_name
                <> Some ASK_AI_EXPERIMENT_gpt4)).
  { rewrite Hm. destruct (getVariant io ASK_AI_EXPERIMENT_name) as [variant |].
    - destruct (String.eqb variant ASK_AI_EXPERIMENT_gpt4) eqn:Hvariant.
      + apply String.eqb_eq in Hvariant.
        split; split; try congruence; discriminate.
      + apply String.eqb_neq in Hvariant.
        split; split; try congruence; discriminate.
    - split; split; try congruence; discriminate. }
  exists req.
  assert (Hrequests :
            requests (snd (try_catch (onSubmit_try io (getSchemas (component w)))
                                     onSubmit_catch w0))
            = requests w ++ [req]).
  { unfold try_catch.
    destruct (onSubmit_try io (getSchemas (component w)) w0)
      as [[[] | e] w1] eqn:Htry; cbn [snd] in *.
    - exact Hreq.
    - destruct (onSubmit_catch_effect (caught e) w1) as (Hsame & _).
      rewrite Hsame. exact Hreq. }
  split; [exact Hrequests |].
  split; [exact Hq |]. repeat split; try assumption; apply Hmodel.
Qed.

(** X6: a flow that reaches the call tracks exactly two telemetry events,
    the click and the finish.  After a resolved call the finish carries the
    code and the token count and no error; after a rejection whose status can
    be read it carries the classified message, no code and zero tokens. *)
Theorem onSubmit_tracks_click_and_finish (ndv : NDVStore) (io : Interaction)
        (w : World) (node : INodeUi) :
  activeNode ndv = Some node ->
  (hasChanges io = true -> alertAnswer io <> "cancel") ->
  let clicked :=
    mkTracked "ask.generationClicked" (prompt (component w))
              None None None None in
  (forall r,
     apiOutcome io = Resolved r ->
     tracked (snd (onSubmit ndv io w)) =
       tracked w ++
       [clicked;
        mkTracked "askAi.generationFinished" (prompt (component w))
                  (Some (code r)) (usage_total_tokens r) (Some false)
                  (Some "")])
  /\ (forall error status,
        apiOutcome io = Rejected error ->
        error_status error = Normal status ->
        tracked (snd (onSubmit ndv io w)) =
          tracked w ++
          [clicked;
           mkTracked "askAi.generationFinished" (prompt (component w))
                     (Some "") (Some 0%Z) (Some true)
                     (Some (getErrorMessageByStatusCode status))]).
Proof.
  intros Hactive Hconfirmed clicked.
  destruct (onSubmit_reaches_try ndv io w node Hactive Hconfirmed)
    as (w0 & Hrun & _ & _ & Htr0 & _ & _ & _ & _ & _ & Hpr0).
  split.
  - intros r Hresolved.
    destruct (onSubmit_try_resolved io (getSchemas (component w)) r w0
                Hresolved)
      as (w1 & Htry & _ & _ & Htr1 & _).
    rewrite Hrun. unfold try_catch. rewrite Htry. cbn [snd].
    rewrite Htr1, Htr0, Hpr0, <- app_assoc. reflexivity.
  - intros error status Hrejected Hstatus.
    destruct (onSubmit_try_rejected io (getSchemas (component w)) error w0
                Hrejected)
      as (w1 & Htry & _ & _ & Htr1 & _ & _ & _ & Hpr1).
    destruct (onSubmit_catch_classifies error status w1 Hstatus)
      as (w2 & Hcatch & _ & _ & Htr2 & _).
    rewrite Hrun. unfold try_catch. rewrite Htry. cbn [caught].
    rewrite Hcatch. cbn [snd].
    rewrite Htr2, Htr1, Htr0, Hpr1, Hpr0, <- app_assoc. reflexivity.
Qed.

(** X7: [onSubmit] never writes the draft: whatever the store, the answers
    and the outcome, the session storage, the prompt and the parent nodes are
    after it what they were before, so a later mount restores the same
    prompt. *)
Theorem onSubmit_keeps_the_draft (ndv : NDVStore) (io : Interaction)
        (ws : WorkflowsStore) (w : World) :
  keeps_draft w (snd (onSubmit ndv io w))
  /\ prompt (component (snd (onMounted ndv ws (snd (onSubmit ndv io w)))))
     = prompt (component (snd (onMounted ndv ws w))).
Proof.
  assert (Hkeeps : keeps_draft w (snd (onSubmit ndv io w))).
  { destruct (activeNode ndv) as [node |] eqn:Hactive.
    - destruct (hasChanges io) eqn:Hchanges.
      + destruct (String.eqb_spec (alertAnswer io) "cancel") as [Hcancel | Hgo].
        * rewrite (onSubmit_cancelled ndv io w); [repeat split | congruence | assumption..].
        * rewrite (onSubmit_unfold ndv io w node Hactive (fun _ => Hgo)).
          unfold try_catch. set (w0 := snd (startLoading _)).
          assert (H0 : keeps_draft w w0) by (unfold w0; run_ops; repeat split).
          destruct (onSubmit_try_effect io (getSchemas (component w)) w0)
            as (_ & Htry & _).
          destruct (onSubmit_try io (getSchemas (component w)) w0)
            as [[[] | e] w1]; cbn [snd] in *.
          -- exact (keeps_draft_trans _ _ _ H0 Htry).
          -- destruct (onSubmit_catch_effect (caught e) w1) as (_ & _ & _ & Hc).
             exact (keeps_draft_trans _ _ _ (keeps_draft_trans _ _ _ H0 Htry) Hc).
      + assert (Hgo : hasChanges io = true -> alertAnswer io <> "cancel")
          by congruence.
        rewrite (onSubmit_unfold ndv io w node Hactive Hgo).
        unfold try_catch. set (w0 := snd (startLoading _)).
        assert (H0 : keeps_draft w w0) by (unfold w0; run_ops; repeat split).
        destruct (onSubmit_try_effect io (getSchemas (component w)) w0)
          as (_ & Htry & _).
        destruct (onSubmit_try io (getSchemas (component w)) w0)
          as [[[] | e] w1]; cbn [snd] in *.
        * exact (keeps_draft_trans _ _ _ H0 Htry).
        * destruct (onSubmit_catch_effect (caught e) w1) as (_ & _ & _ & Hc).
          exact (keeps_draft_trans _ _ _ (keeps_draft_trans _ _ _ H0 Htry) Hc).
    - rewrite (onSubmit_without_active_node ndv io w Hactive).
      apply keeps_draft_refl. }
  split; [exact Hkeeps |].
  rewrite !onMounted_prompt. destruct Hkeeps as (-> & _). reflexivity.
Qed.

(** The status of an error object whose direct field is truthy, or whose
    [response] is an object. *)
Lemma error_status_readable (fields : list (string * JsVal)) (status : JsVal) :
  let direct := default JUndefined (Js.assoc "httpStatusCode" fields) in
  (Js.truthy direct = true /\ status = direct)
  \/ (Js.truthy direct = false
      /\ exists response,
           Js.assoc "response" fields = Some (JObj response)
           /\ status = default JUndefined (Js.assoc "status" response)) ->
  error_status (JObj fields) = Normal status.
Proof.
  intros direct [[Htruthy ->] | [Hfalsy (response & Hresponse & ->)]].
  - unfold direct in *.
    destruct (Js.assoc "httpStatusCode" fields) as [v |] eqn:Hdirect;
      [| discriminate].
    now apply error_status_direct.
  - now apply error_status_nested.
Qed.

(** X8: which status classifies a rejection.  A truthy [httpStatusCode]
    wins; a missing or falsy one (0 included) gives way to [response.status]
    when [response] is an object, a missing [status] reading as unknown.  The
    flow then ends normally with exactly one error toast carrying the message
    of that status, and no "replaceCode". *)
Theorem onSubmit_failure_toast (ndv : NDVStore) (io : Interaction) (w : World)
        (node : INodeUi) (fields : list (string * JsVal)) (status : JsVal) :
  activeNode ndv = Some node ->
  (hasChanges io = true -> alertAnswer io <> "cancel") ->
  apiOutcome io = Rejected (JObj fields) ->
  (let direct := default JUndefined (Js.assoc "httpStatusCode" fields) in
   (Js.truthy direct = true /\ status = direct)
   \/ (Js.truthy direct = false
       /\ exists response,
            Js.assoc "response" fields = Some (JObj response)
            /\ status = default JUndefined (Js.assoc "status" response))) ->
  fst (onSubmit ndv io w) = Normal tt
  /\ toasts (snd (onSubmit ndv io w)) =
       toasts w ++
       [mkToast "error" (baseText "codeNodeEditor.askAi.generationFailed")
                (Some (getErrorMessageByStatusCode status))]
  /\ emitted (snd (onSubmit ndv io w)) =
       emitted w ++ [EmitStartedLoading; EmitFinishedLoading].
Proof.
  intros Hactive Hconfirmed Hrejected Hstatus.
  apply error_status_readable in Hstatus.
  destruct (onSubmit_failure_with_status ndv io w node (JObj fields) status
              Hactive Hconfirmed Hrejected Hstatus)
    as (Hnormal & Hemitted & Htoasts & _).
  repeat split; assumption.
Qed.

(** *** More on the loading animation *)








Section WithinDuration.

Hypothesis duration_positive : (0 < ASK_AI_LOADING_DURATION_MS)%Q.




End WithinDuration.



(** A run of [step] keeps the phrase index or draws a new one. *)
Lemma step_phrase_index (l : Loop) (timestamp : Q) (w : World) :
  loadingPhraseIndex (component (snd (step l timestamp w)))
  = loadingPhraseIndex (component w)
  \/ exists n,
       loadingPhraseIndex (component (snd (step l timestamp w)))
       = Qfloor (Math_random n * 8).
Proof.
  destruct w as [[idx progress loading p nodes] ? ? ? ? ? fs calls ?].
  destruct l as [st last]. run_monad.
  destruct (Qeq_bool last 0 || Qle_bool 2000 (timestamp - last));
    destruct loading; run_monad; repeat case_if; run_monad;
    solve [now left | right; exists calls; reflexivity].
Qed.

Lemma floor_of_random_in_range (r : Q) :
  (0 <= r)%Q -> (r < 1)%Q -> (0 <= Qfloor (r * 8) < 8)%Z.
Proof.
  intros Hlow Hhigh. split.
  - change 0%Z with (Qfloor (inject_Z 0)). apply Qfloor_resp_le.
    change (inject_Z 0) with 0%Q. lra.
  - pose proof (Qfloor_le (r * 8)) as Hfloor.
    assert (Hlt : (inject_Z (Qfloor (r * 8)) < inject_Z 8)%Q).
    { change (inject_Z 8) with 8%Q. lra. }
    now rewrite <- Zlt_Qlt in Hlt.
Qed.

Section RandomInRange.

(** [Math.random()] returns a number of the interval from 0 (included) to 1
    (excluded). *)
Hypothesis Math_random_range :
  forall n, (0 <= Math_random n)%Q /\ (Math_random n < 1)%Q.

Lemma step_phrase_in_range (l : Loop) (timestamp : Q) (w : World) :
  (0 <= loadingPhraseIndex (component w) < 8)%Z ->
  (0 <= loadingPhraseIndex (component (snd (step l timestamp w))) < 8)%Z.
Proof using Math_random_range.
  intros Hrange.
  destruct (step_phrase_index l timestamp w) as [-> | (n & ->)];
    [exact Hrange |].
  destruct (Math_random_range n). now apply floor_of_random_in_range.
Qed.

Lemma run_steps_phrase_in_range (pending : list Loop) (timestamp : Q)
      (w : World) :
  (0 <= loadingPhraseIndex (component w) < 8)%Z ->
  (0 <= loadingPhraseIndex
          (component (snd (run_steps pending timestamp w))) < 8)%Z.
Proof using Math_random_range.
  revert w. induction pending as [| l pending IH]; intros w Hrange;
    [exact Hrange |].
  cbn [run_steps]. unfold bind.
  pose proof (step_phrase_in_range l timestamp w Hrange) as Hstep.
  destruct (step_run l timestamp w) as (_ & _ & Hnormal & _).
  destruct (step l timestamp w) as [[[] | e] w1]; cbn [fst snd] in *;
    [| discriminate].
  now apply IH.
Qed.

Lemma animationFrames_phrase_in_range (timestamps : list Q) (w : World) :
  (0 <= loadingPhraseIndex (component w) < 8)%Z ->
  (0 <= loadingPhraseIndex
          (component (snd (animationFrames timestamps w))) < 8)%Z.
Proof using Math_random_range.
  revert w. induction timestamps as [| t rest IH]; intros w Hrange;
    [exact Hrange |].
  cbn [animationFrames]. unfold bind.
  assert (Hframe : (0 <= loadingPhraseIndex
                            (component (snd (animationFrame t w))) < 8)%Z).
  { unfold animationFrame, bind, gets, modify. cbn [fst snd].
    apply run_steps_phrase_in_range. exact Hrange. }
  destruct (animationFrame_normal t w) as [Hnormal _].
  destruct (animationFrame t w) as [[[] | e] w1]; cbn [fst snd] in *;
    [| discriminate].
  now apply IH.
Qed.

End RandomInRange.

Lemma loadingString_in_range (c : Component) :
  (0 <= loadingPhraseIndex c < 8)%Z ->
  In (loadingString c)
     (map baseText
          [ "codeNodeEditor.askAi.loadingPhrase0";
            "codeNodeEditor.askAi.loadingPhrase1";
            "codeNodeEditor.askAi.loadingPhrase2";
            "codeNodeEditor.askAi.loadingPhrase3";
            "codeNodeEditor.askAi.loadingPhrase4";
            "codeNodeEditor.askAi.loadingPhrase5";
            "codeNodeEditor.askAi.loadingPhrase6";
            "codeNodeEditor.askAi.loadingPhrase7" ]).
Proof.
  only_mentioned. intros Hrange. unfold loadingString.
  assert (Hcases : loadingPhraseIndex c = 0%Z \/ loadingPhraseIndex c = 1%Z
                   \/ loadingPhraseIndex c = 2%Z \/ loadingPhraseIndex c = 3%Z
                   \/ loadingPhraseIndex c = 4%Z \/ loadingPhraseIndex c = 5%Z
                   \/ loadingPhraseIndex c = 6%Z \/ loadingPhraseIndex c = 7%Z)
    by lia.
  cbn [map In].
  repeat (destruct Hcases as [-> | Hcases]; [tauto |]).
  rewrite Hcases. tauto.
Qed.

(** X11: with [Math.random] in its interval, the phrase index stays one of
    0..7 over any frames once it is (it starts at 0), so the loader's text is
    always the text of one of the eight loading phrases. *)
Theorem loading_phrase_is_one_of_eight (timestamps : list Q) (w : World) :
  (forall n, (0 <= Math_random n)%Q /\ (Math_random n < 1)%Q) ->
  (0 <= loadingPhraseIndex (component w) < 8)%Z ->
  let c' := component (snd (animationFrames timestamps w)) in
  (0 <= loadingPhraseIndex c' < 8)%Z
  /\ In (loadingString c')
        (map baseText
             [ "codeNodeEditor.askAi.loadingPhrase0";
               "codeNodeEditor.askAi.loadingPhrase1";
               "codeNodeEditor.askAi.loadingPhrase2";
               "codeNodeEditor.askAi.loadingPhrase3";
               "codeNodeEditor.askAi.loadingPhrase4";
               "codeNodeEditor.askAi.loadingPhrase5";
               "codeNodeEditor.askAi.loadingPhrase6";
               "codeNodeEditor.askAi.loadingPhrase7" ]).
Proof.
  intros Hrandom Hrange c'.
  assert (Hc' : (0 <= loadingPhraseIndex c' < 8)%Z).
  { now apply animationFrames_phrase_in_range. }
  split; [exact Hc' | now apply loadingString_in_range].
Qed.

(** *** From the click to the end of the animation *)

Lemma run_timers_frames (pending : list (Z * TimerCallback)) (w : World) :
  frames (snd (run_timers pending w)) = frames w.
Proof.
  revert w. induction pending as [| [delay []] rest IH]; intros w;
    [reflexivity |].
  cbn [run_timers run_timer]. run_ops. now rewrite IH.
Qed.

Lemma timersExpire_frames (w : World) :
  frames (snd (timersExpire w)) = frames w.
Proof. unfold timersExpire. run_ops. now rewrite run_timers_frames. Qed.

Lemma timersExpire_none (w : World) :
  timeouts w = [] -> timersExpire w = (Normal tt, w).
Proof. destruct w. cbn [timeouts]. intros ->. reflexivity. Qed.

Lemma animationFrame_not_loading (timestamp : Q) (w : World) :
  isLoading (component w) = false ->
  frames (snd (animationFrame timestamp w)) = []
  /\ isLoading (component (snd (animationFrame timestamp w))) = false.
Proof.
  intros Hidle. split.
  - unfold animationFrame, bind, gets, modify. cbn [fst snd].
    rewrite run_steps_not_loading; [reflexivity | exact Hidle].
  - destruct (animationFrame_normal timestamp w)
      as (_ & _ & _ & _ & _ & _ & _ & Hsame & _).
    congruence.
Qed.

Lemma click_while_loading (ndv : NDVStore) (io : Interaction) (w : World) :
  isLoading (component w) = true -> click ndv io w = (Normal tt, w).
Proof.
  intros Hloading. unfold click, bind, gets, controls. cbn [fst snd].
  now rewrite Hloading.
Qed.

(** The world a flow that reaches the call ends in, as far as the loading
    flag and the timers go. *)
Lemma onSubmit_flag_and_timers (ndv : NDVStore) (io : Interaction) (w : World)
      (node : INodeUi) :
  activeNode ndv = Some node ->
  (hasChanges io = true -> alertAnswer io <> "cancel") ->
  let w' := snd (onSubmit ndv io w) in
  isLoading (component w') = true
  /\ (forall r, apiOutcome io = Resolved r ->
                timeouts w' = timeouts w ++ [(200%Z, SetIsLoadingFalse)])
  /\ (forall error status,
        apiOutcome io = Rejected error ->
        error_status error = Normal status ->
        timeouts w' = timeouts w ++ [(200%Z, SetIsLoadingFalse)])
  /\ (forall error e,
        apiOutcome io = Rejected error ->
        error_status error = Throw e ->
        timeouts w' = timeouts w).
Proof.
  intros Hactive Hconfirmed w'. unfold w'.
  rewrite (onSubmit_unfold ndv io w node Hactive Hconfirmed).
  set (w0 := snd (startLoading _)).
  assert (Hl0 : isLoading (component w0) = true) by reflexivity.
  assert (Ht0 : timeouts w0 = timeouts w) by reflexivity.
  destruct (onSubmit_try_effect io (getSchemas (component w)) w0)
    as (_ & _ & Hl1 & _).
  unfold try_catch.
  destruct (apiOutcome io) as [r | error] eqn:Houtcome.
  - destruct (onSubmit_try_resolved io (getSchemas (component w)) r w0
                Houtcome)
      as (w2 & Htry & _ & _ & _ & _ & Hti & _).
    rewrite Htry in *. cbn [snd] in *.
    repeat split; congruence.
  - destruct (onSubmit_try_rejected io (getSchemas (component w)) error w0
                Houtcome)
      as (w2 & Htry & _ & _ & _ & _ & Hti & _).
    rewrite Htry in *. cbn [snd caught] in *.
    destruct (onSubmit_catch_effect error w2) as (_ & _ & Hlc & _).
    repeat split; try congruence.
    + intros error' status Heq Hstatus. injection Heq as <-.
      destruct (onSubmit_catch_classifies error status w2 Hstatus)
        as (w3 & Hcatch & _ & _ & _ & _ & Htc & _).
      rewrite Hcatch. cbn [snd]. now rewrite Htc, Hti, Ht0.
    + intros error' e Heq Hthrows. injection Heq as <-.
      rewrite (onSubmit_catch_throws error e w2 Hthrows). cbn [snd].
      now rewrite Hti, Ht0.
Qed.

(** X12: how the animation ends.  When the call resolves, or rejects with
    a status that can be read, [onSubmit] returns with [isLoading] still true,
    so the loader is shown and a click does nothing; once the timer has
    expired [isLoading] is false, the next frame leaves no loop pending, and
    later frames change nothing. *)
Theorem loading_ends_after_teardown (ndv : NDVStore) (io : Interaction)
        (w : World) (node : INodeUi) :
  activeNode ndv = Some node ->
  (hasChanges io = true -> alertAnswer io <> "cancel") ->
  ((exists r, apiOutcome io = Resolved r)
   \/ (exists error status,
         apiOutcome io = Rejected error
         /\ error_status error = Normal status)) ->
  let w' := snd (onSubmit ndv io w) in
  let expired := snd (timersExpire w') in
  (forall ndv',
     controls ndv' (component w')
     = Loader (loadingString (component w')) (loaderProgress (component w')))
  /\ (forall ndv' io', click ndv' io' w' = (Normal tt, w'))
  /\ isLoading (component expired) = false
  /\ (forall timestamp,
        let stopped := snd (animationFrame timestamp expired) in
        frames stopped = []
        /\ isLoading (component stopped) = false
        /\ forall later, animationFrames later stopped = (Normal tt, stopped)).
Proof.
  intros Hactive Hconfirmed Hsettles w' expired.
  destruct (onSubmit_flag_and_timers ndv io w node Hactive Hconfirmed)
    as (Hloading & Hresolved & Hrejected & _).
  fold w' in Hloading, Hresolved, Hrejected.
  assert (Hpending : timeouts w' <> []).
  { destruct Hsettles as [(r & Hr) | (error & status & He & Hs)].
    - rewrite (Hresolved r Hr). now destruct (timeouts w).
    - rewrite (Hrejected error status He Hs). now destruct (timeouts w). }
  assert (Hexpired : isLoading (component expired) = false).
  { now apply timersExpire_isLoading. }
  split; [| split; [| split; [exact Hexpired |]]].
  - intros ndv'. unfold controls. now rewrite Hloading.
  - intros ndv' io'. now apply click_while_loading.
  - intros timestamp stopped.
    destruct (animationFrame_not_loading timestamp expired Hexpired)
      as [Hnone Hidle].
    split; [exact Hnone | split; [exact Hidle |]].
    intros later. now apply animationFrames_idle.
Qed.

(** X13: how the loader does not go away.  When the call rejects with an
    error object that has neither a truthy [httpStatusCode] nor a [response],
    [onSubmit] schedules no timer; if none was pending, then over any frames
    [isLoading] stays true, so the controls row keeps showing the loader
    instead of the button and clicks do nothing. *)
Theorem loader_stays_after_unreadable_rejection
        (ndv : NDVStore) (io : Interaction) (w : World) (node : INodeUi)
        (fields : list (string * JsVal)) (timestamps : list Q) :
  activeNode ndv = Some node ->
  (hasChanges io = true -> alertAnswer io <> "cancel") ->
  apiOutcome io = Rejected (JObj fields) ->
  Js.truthy (default JUndefined (Js.assoc "httpStatusCode" fields)) = false ->
  Js.assoc "response" fields = None ->
  timeouts w = [] ->
  let w' := snd (onSubmit ndv io w) in
  let later := snd (animationFrames timestamps (snd (timersExpire w'))) in
  timeouts w' = []
  /\ isLoading (component later) = true
  /\ (forall ndv',
        controls ndv' (component later)
        = Loader (loadingString (component later))
                 (loaderProgress (component later)))
  /\ (forall ndv' io', click ndv' io' later = (Normal tt, later)).
Proof.
  intros Hactive Hconfirmed Hrejected Hfalsy Hresponse Hnone w' later.
  destruct (onSubmit_flag_and_timers ndv io w node Hactive Hconfirmed)
    as (Hloading & _ & _ & Hthrows).
  fold w' in Hloading, Hthrows.
  assert (Hsame : timeouts w' = []).
  { rewrite (Hthrows (JObj fields) TypeError Hrejected); [exact Hnone |].
    now apply error_status_without_response. }
  assert (Hstill : isLoading (component later) = true).
  { unfold later. rewrite (timersExpire_none w' Hsame). cbn [snd].
    destruct (animationFrames_normal timestamps w')
      as (_ & _ & _ & _ & _ & _ & _ & Hflag & _).
    congruence. }
  split; [exact Hsame | split; [exact Hstill | split]].
  - intros ndv'. unfold controls. now rewrite Hstill.
  - intros ndv' io'. now apply click_while_loading.
Qed.

(** *** More on ancestors and their schemas *)

(** Whether the store knows a node of that name. *)
Lemma non_null_known (ws : WorkflowsStore) (l : list IConnectedNode) :
  (forall n node, getNodeByName ws n = Some node -> name node = n) ->
  map name (JsArray.non_null (map (fun n => getNodeByName ws (cn_name n)) l))
  = List.filter
      (fun n => match getNodeByName ws n with Some _ => true | None => false end)
      (map cn_name l).
Proof.
  intros Hname. induction l as [| x l IH]; [reflexivity |].
  cbn. destruct (getNodeByName ws (cn_name x)) as [node |] eqn:Hnode.
  - cbn. rewrite (Hname _ _ Hnode). now f_equal.
  - exact IH.
Qed.

Lemma keep_first_length (seen l : list string) :
  (length (keep_first seen l) <= length l)%nat.
Proof.
  only_mentioned.
  revert seen. induction l as [| n rest IH]; intros seen; cbn; [lia |].
  destruct (existsb (String.eqb n) seen); cbn.
  - specialize (IH seen). lia.
  - specialize (IH (n :: seen)). lia.
Qed.

(** The names [getParentNodes] returns, for a store that returns a node of
    the name it is asked for or [null]. *)
Lemma getParentNodes_drops_unknown_nodes_aux (ndv : NDVStore)
      (ws : WorkflowsStore) (active : INodeUi) (workflow : Workflow) :
  activeNode ndv = Some active ->
  getCurrentWorkflow ws = Some workflow ->
  (forall n node, getNodeByName ws n = Some node -> name node = n) ->
  map name (getParentNodes ndv ws) =
    List.filter
      (fun n => match getNodeByName ws n with Some _ => true | None => false end)
      (ancestors_spec (name active)
         (map cn_name (getParentNodesByDepth workflow (name active))))
  /\ List.NoDup (map name (getParentNodes ndv ws))
  /\ ~ In (name active) (map name (getParentNodes ndv ws)).
Proof.
  only_mentioned. intros Hactive Hworkflow Hname.
  assert (Hnames :
            map name (getParentNodes ndv ws) =
              List.filter
                (fun n =>
                   match getNodeByName ws n with
                   | Some _ => true
                   | None => false
                   end)
                (ancestors_spec (name active)
                   (map cn_name (getParentNodesByDepth workflow (name active))))).
  { unfold getParentNodes. rewrite Hactive, Hworkflow.
    rewrite (non_null_known ws _ Hname). f_equal.
    unfold JsArray.filter, ancestors_spec.
    apply (filter_from_keep_first (name active) _ [] []).
    intros n _. cbn. tauto. }
  split; [exact Hnames | split].
  - rewrite Hnames. apply List.NoDup_filter, keep_first_NoDup.
  - rewrite Hnames, filter_In. unfold ancestors_spec.
    rewrite keep_first_In, filter_In, negb_true_iff.
    intros [[[_ Hne] _] _]. now rewrite String.eqb_refl in Hne.
Qed.

(** X14: [getParentNodes] returns nothing without an active node or a
    workflow.  Otherwise, when the store returns a node of the name it is
    asked for or [null], the names returned are those of the ancestors (the
    listed names without the active node's, first occurrences, in order) that
    the store knows: unknown ones are dropped, no name occurs twice, the
    active node's never, and there are at most as many as listed. *)
Theorem getParentNodes_drops_unknown_nodes (ndv : NDVStore)
        (ws : WorkflowsStore) :
  (activeNode ndv = None \/ getCurrentWorkflow ws = None ->
   getParentNodes ndv ws = [])
  /\ (forall active workflow,
        activeNode ndv = Some active ->
        getCurrentWorkflow ws = Some workflow ->
        (forall n node, getNodeByName ws n = Some node -> name node = n) ->
        let listed :=
          map cn_name (getParentNodesByDepth workflow (name active)) in
        let names := map name (getParentNodes ndv ws) in
        names =
          List.filter
            (fun n =>
               match getNodeByName ws n with Some _ => true | None => false end)
            (ancestors_spec (name active) listed)
        /\ List.NoDup names
        /\ ~ In (name active) names
        /\ (length (getParentNodes ndv ws) <= length listed)%nat).
Proof.
  only_mentioned. split.
  - unfold getParentNodes. intros [-> | ->]; [reflexivity |].
    now destruct (activeNode ndv).
  - intros active workflow Hactive Hworkflow Hname listed names.
    destruct (getParentNodes_drops_unknown_nodes_aux ndv ws active workflow
                Hactive Hworkflow Hname)
      as (Hnames & Hnodup & Hnot).
    fold listed names in Hnames, Hnodup, Hnot.
    split; [exact Hnames | split; [exact Hnodup | split; [exact Hnot |]]].
    rewrite <- (length_map name). fold names. rewrite Hnames.
    etransitivity; [apply filter_length_le |].
    unfold ancestors_spec.
    etransitivity; [apply keep_first_length |].
    etransitivity; [apply filter_length_le |]. unfold listed.
    now rewrite length_map.
Qed.

Lemma filter_map_schema_of_node (nodes : list INodeUi) :
  map nodeName (List.filter has_schema (map schema_of_node nodes))
  = map name
        (List.filter (fun node => has_schema (schema_of_node node)) nodes).
Proof.
  induction nodes as [| node nodes IH]; [reflexivity |].
  cbn [map List.filter]. destruct (has_schema (schema_of_node node)).
  - cbn [map]. now rewrite schema_of_node_name, IH.
  - exact IH.
Qed.

Lemma NoDup_map_filter {A B} (f : A -> B) (p : A -> bool) (l : list A) :
  List.NoDup (map f l) -> List.NoDup (map f (List.filter p l)).
Proof.
  only_mentioned.
  induction l as [| x l IH]; cbn; [trivial |].
  intros Hnodup. apply List.NoDup_cons_iff in Hnodup as [Hx Hl].
  destruct (p x); [| now apply IH].
  cbn. constructor; [| now apply IH].
  intros Hin. apply Hx. apply in_map_iff in Hin as (y & Hy & Hin).
  apply filter_In in Hin as [Hin _]. apply in_map_iff. eauto.
Qed.

Lemma getSchemas_named (c : Component) :
  match inputSchema (getSchemas c) with
  | Some primary => [primary]
  | None => []
  end ++ parentNodesSchemas (getSchemas c)
  = List.filter has_schema (map schema_of_node (parentNodes c)).
Proof.
  unfold getSchemas.
  destruct (List.filter has_schema (map schema_of_node (parentNodes c)));
    reflexivity.
Qed.

(** X15: mount, then [getSchemas].  With a store that returns a node of
    the name it is asked for or [null], the schemas sent as context (the
    primary one and the auxiliary ones) are named after distinct ancestors
    listed for the active node, never after the active node itself. *)
Theorem mounted_schemas_name_distinct_ancestors
        (ndv : NDVStore) (ws : WorkflowsStore) (w : World)
        (active : INodeUi) (workflow : Workflow) :
  activeNode ndv = Some active ->
  getCurrentWorkflow ws = Some workflow ->
  (forall n node, getNodeByName ws n = Some node -> name node = n) ->
  let result := getSchemas (component (snd (onMounted ndv ws w))) in
  let names :=
    map nodeName
        (match inputSchema result with
         | Some primary => [primary]
         | None => []
         end ++ parentNodesSchemas result) in
  List.NoDup names
  /\ ~ In (name active) names
  /\ (forall n, In n names ->
                In n (map cn_name
                          (getParentNodesByDepth workflow (name active)))).
Proof.
  intros Hactive Hworkflow Hname result names.
  destruct (getParentNodes_drops_unknown_nodes_aux ndv ws active workflow
              Hactive Hworkflow Hname)
    as (Hparents & Hnodup & Hnot).
  assert (Hmounted : parentNodes (component (snd (onMounted ndv ws w)))
                     = getParentNodes ndv ws) by reflexivity.
  assert (Hnames :
            names =
              map name
                  (List.filter (fun node => has_schema (schema_of_node node))
                               (getParentNodes ndv ws))).
  { unfold names, result.
    now rewrite getSchemas_named, Hmounted, filter_map_schema_of_node. }
  assert (Hsub : forall n, In n names -> In n (map name (getParentNodes ndv ws))).
  { intros n. rewrite Hnames, !in_map_iff.
    intros (node & Hn & Hin). apply filter_In in Hin as [Hin _]. eauto. }
  split; [| split].
  - rewrite Hnames. now apply NoDup_map_filter.
  - intros Hin. apply Hnot. now apply Hsub.
  - intros n Hin. apply Hsub in Hin. rewrite Hparents in Hin.
    apply filter_In in Hin as [Hin _]. unfold ancestors_spec in Hin.
    apply keep_first_In in Hin as [Hin _].
    now apply filter_In in Hin as [Hin _].
Qed.

(** *** Clicks *)

(** X16: a click sends a request only from an idle, enabled button: if the
    request log differs after the click, then the component was not loading,
    the mode was not "runOnceForEachItem", the prompt had at least
    [ASK_AI_MIN_PROMPT_LENGTH] characters, the NDV input data was not empty
    and there was an active node. *)
Theorem click_sends_only_when_enabled (ndv : NDVStore) (io : Interaction)
        (w : World) :
  requests (snd (click ndv io w)) <> requests w ->
  isLoading (component w) = false
  /\ isEachItemMode ndv = false
  /\ (ASK_AI_MIN_PROMPT_LENGTH <= String.length (prompt (component w)))%nat
  /\ hasExecutionData ndv = true
  /\ activeNode ndv <> None.
Proof.
  unfold click, bind, gets, controls. cbn [fst snd].
  destruct (isLoading (component w)) eqn:Hloading;
    [cbn; congruence |].
  destruct (isSubmitEnabled ndv (component w)) eqn:Henabled; cbn [negb];
    [| cbn; congruence].
  intros Hsent.
  unfold isSubmitEnabled in Henabled.
  apply andb_prop in Henabled as [Henabled Hdata].
  apply andb_prop in Henabled as [Hmode Hlength].
  apply negb_true_iff in Hmode. apply Nat.leb_le in Hlength.
  repeat split; try assumption.
  intros Hnone. apply Hsent.
  now rewrite (onSubmit_without_active_node ndv io w Hnone).
Qed.

End AskAI.

(** ** The properties on the workflow *)

(** The component on the workflow. *)
Abbreviation demo_getSchemas :=
  (getSchemas (list string) (list string) (list string) (@length string)
              demo_pinned demo_toJson demo_inferSchema).

Abbreviation demo_onSubmit :=
  (onSubmit demo_duration demo_baseText (list string) (list string)
            (list string) (@length string) demo_pinned demo_toJson
            demo_inferSchema demo_random "ask_ai" "gpt4" demo_ndv).

Example snakeCase_ascii_my_node :
  snakeCase_ascii "My Node 1" = "my_node_1" /\ snakeCase_ascii "" = "".
Proof. split; reflexivity. Qed.

Example demo_getParentNodes :
  getParentNodes (list string) demo_ndv demo_stores =
    [mkNode "B" None; mkNode "C" None; mkNode "D" None].
Proof. reflexivity. Qed.

Example demo_schemas :
  inputSchema (demo_getSchemas demo_component) = Some (mkNamed "C" ["sum"])
  /\ parentNodesSchemas (demo_getSchemas demo_component)
     = [mkNamed "D" ["a"; "b"]].
Proof. split; reflexivity. Qed.

Example demo_submit_enabled :
  isSubmitEnabled demo_min_length (list string) demo_ndv demo_component = true.
Proof. reflexivity. Qed.

(** C4 on the table that renders keys as themselves. *)
Lemma getErrorMessageByStatusCode_classifies_witness :
  getErrorMessageByStatusCode demo_baseText (JNum 413)
    = "codeNodeEditor.askAi.generationFailedTooLarge"
  /\ getErrorMessageByStatusCode demo_baseText JUndefined
    = "codeNodeEditor.askAi.generationFailedUnknown".
Proof.
  assert (Hlarge : demo_baseText "codeNodeEditor.askAi.generationFailedTooLarge"
                   <> "") by discriminate.
  assert (Hrate : demo_baseText "codeNodeEditor.askAi.generationFailedRate"
                  <> "") by discriminate.
  destruct (getErrorMessageByStatusCode_classifies
              demo_baseText (JNum 413) Hlarge Hrate)
    as (H413 & _ & _ & _ & _ & Habsent).
  split; [exact (H413 eq_refl) | exact Habsent].
Defined.

(** C1 on the error object without fields. *)
Lemma error_status_throws_without_response_witness :
  error_status (JObj []) = Throw TypeError
  /\ onSubmit_catch demo_baseText (list string) (JObj []) demo_world
     = (Throw TypeError, demo_world).
Proof.
  exact (error_status_throws_without_response
           demo_baseText (list string) [] demo_world eq_refl eq_refl).
Defined.

(** C2 fails as stated: with the bounds 15 and 600, a prompt of 601
    characters with input data present and no ancestor schema at all has
    submission enabled. *)
Lemma isSubmitEnabled_beyond_max_counterexample :
  isSubmitEnabled demo_min_length (list string) demo_ndv demo_long_prompt = true
  /\ (demo_max_length < String.length (prompt demo_long_prompt))%nat
  /\ inputSchema (demo_getSchemas demo_long_prompt) = None.
Proof.
  split; [vm_compute; reflexivity | split; [| reflexivity]].
  unfold demo_long_prompt, demo_max_length. cbn [prompt].
  rewrite repeat_char_length. lia.
Qed.

(** C6 on the diamond: "D" is listed twice and returned once. *)
Lemma getParentNodes_ancestors_witness :
  map name (getParentNodes (list string) demo_ndv demo_stores) = ["B"; "C"; "D"]
  /\ List.NoDup (map name (getParentNodes (list string) demo_ndv demo_stores)).
Proof.
  assert (Hresolved :
            forall n,
              In n (getParentNodesByDepth demo_workflow "A") ->
              exists node, getNodeByName demo_stores (cn_name n) = Some node
                           /\ name node = cn_name n).
  { intros n [<- | [<- | [<- | [<- | []]]]]; eexists; split; reflexivity. }
  destruct (getParentNodes_ancestors
              (list string) demo_ndv demo_stores
              (mkNode "A" (Some "runOnceForAllItems")) demo_workflow
              eq_refl eq_refl Hresolved)
    as (Hnames & _ & Hnodup & _).
  split; [exact Hnames | exact Hnodup].
Defined.

(** C7 on the call that resolves with "return a+b". *)
Lemma onSubmit_success_witness :
  fst (demo_onSubmit demo_resolves demo_world) = Normal tt
  /\ emitted (snd (demo_onSubmit demo_resolves demo_world))
     = [EmitStartedLoading; EmitFinishedLoading; EmitReplaceCode "return a+b"]
  /\ loaderProgress (component (snd (demo_onSubmit demo_resolves demo_world)))
     = 100%Q
  /\ timeouts (snd (demo_onSubmit demo_resolves demo_world))
     = [(200%Z, SetIsLoadingFalse)].
Proof.
  assert (Hconfirmed : hasChanges demo_resolves = true ->
                       alertAnswer demo_resolves <> "cancel") by discriminate.
  destruct (onSubmit_success
              demo_duration demo_baseText (list string) (list string)
              (list string) (@length string) demo_pinned demo_toJson
              demo_inferSchema demo_random "ask_ai" "gpt4" demo_ndv
              demo_resolves demo_world
              (mkNode "A" (Some "runOnceForAllItems"))
              (mkGenerated "return a+b" (Some 42%Z))
              eq_refl Hconfirmed eq_refl)
    as (Hnormal & Hemitted & _ & _ & Hprogress & _ & Htimeouts & _).
  repeat split; assumption.
Defined.

(** C3 on the call that rejects with the error object without fields. *)
Lemma onSubmit_rejection_without_status_throws_witness :
  fst (demo_onSubmit demo_rejects demo_world) = Throw TypeError
  /\ toasts (snd (demo_onSubmit demo_rejects demo_world)) = []
  /\ timeouts (snd (demo_onSubmit demo_rejects demo_world)) = []
  /\ isLoading (component (snd (demo_onSubmit demo_rejects demo_world))) = true.
Proof.
  assert (Hconfirmed : hasChanges demo_rejects = true ->
                       alertAnswer demo_rejects <> "cancel") by discriminate.
  destruct (onSubmit_rejection_without_status_throws
              demo_duration demo_baseText (list string) (list string)
              (list string) (@length string) demo_pinned demo_toJson
              demo_inferSchema demo_random "ask_ai" "gpt4" demo_ndv
              demo_rejects demo_world
              (mkNode "A" (Some "runOnceForAllItems")) []
              eq_refl Hconfirmed eq_refl eq_refl eq_refl)
    as (Hthrows & _ & Htoasts & Htimeouts & Hloading).
  repeat split; assumption.
Defined.

(** C8 on the nodes "My Node 1" and "My Node 2". *)
Lemma draft_round_trip_witness :
  let node1 := mkNDV (Some (mkNode "My Node 1" None)) (Some [["sum"]]) in
  let node2 := mkNDV (Some (mkNode "My Node 2" None)) (Some [["sum"]]) in
  let typed :=
    snd (inputEvent (list string) (list string) snakeCase_ascii node1
                    "add two numbers" demo_world) in
  getSessionStoragePrompt (list string) snakeCase_ascii node1
    = "ask_ai_prompt__my_node_1"
  /\ prompt (component
               (snd (onMounted (list string) (list string) snakeCase_ascii
                               node1 demo_stores typed)))
     = "add two numbers"
  /\ prompt (component
               (snd (onMounted (list string) (list string) snakeCase_ascii
                               node1 demo_stores
                               (snd (inputEvent (list string) (list string)
                                                snakeCase_ascii node2
                                                "sort the items" typed)))))
     = "add two numbers".
Proof.
  intros node1 node2 typed.
  destruct (draft_round_trip
              (list string) (list string) snakeCase_ascii
              (mkNode "My Node 1" None) (Some [["sum"]]) demo_stores
              "add two numbers" demo_world)
    as (Hkey & Hsame & Hother).
  split; [exact Hkey | split; [exact Hsame |]].
  apply (Hother (mkNode "My Node 2" None) (Some [["sum"]]) "sort the items").
  discriminate.
Defined.

(** C10 with the ASCII [snakeCase]. *)
Lemma no_active_node_shared_slot_witness :
  getSessionStoragePrompt (list string) snakeCase_ascii (mkNDV None None)
    = "ask_ai_prompt__"
  /\ prompt (component
               (snd (onMounted (list string) (list string) snakeCase_ascii
                               (mkNDV None None) demo_stores
                               (snd (inputEvent (list string) (list string)
                                                snakeCase_ascii
                                                (mkNDV None None)
                                                "add two numbers"
                                                demo_world)))))
     = "add two numbers".
Proof.
  destruct (no_active_node_shared_slot
              (list string) (list string) snakeCase_ascii None demo_stores
              "add two numbers" demo_world eq_refl)
    as (Hkey & _ & _ & Hrestored).
  split; [exact Hkey | exact Hrestored].
Defined.

(** ** The further properties on the workflow *)

Abbreviation demo_click :=
  (click demo_min_length demo_duration demo_baseText (list string)
         (list string) (list string) (@length string) demo_pinned demo_toJson
         demo_inferSchema demo_random "ask_ai" "gpt4" demo_ndv).

Abbreviation demo_frames :=
  (animationFrames demo_duration (list string) demo_random).

(** X3 on "My Node" and "my_node", which snake-case alike. *)
Lemma draft_slot_is_shared_by_colliding_names_witness :
  prompt
    (component
       (snd (onMounted (list string) (list string) snakeCase_ascii
               (mkNDV (Some (mkNode "my_node" None)) None) demo_stores
               (snd (inputEvent (list string) (list string) snakeCase_ascii
                       (mkNDV (Some (mkNode "My Node" None)) None)
                       "add two numbers" demo_world)))))
  = "add two numbers".
Proof.
  destruct (draft_slot_is_shared_by_colliding_names
              (list string) (list string) snakeCase_ascii
              (mkNode "My Node" None) (mkNode "my_node" None) None None
              demo_stores "add two numbers" "" demo_world)
    as (Hshared & _).
  exact (Hshared eq_refl).
Defined.

(** X5 on the call that resolves: one request, for the default model. *)
Lemma onSubmit_sends_one_request_witness :
  exists req,
    requests (snd (demo_onSubmit demo_resolves demo_world)) = [req]
    /\ question req = "add two numbers"
    /\ context_inputSchema req = Some (mkNamed "C" ["sum"])
    /\ context_schema req = [mkNamed "D" ["a"; "b"]]
    /\ model req = "gpt-3.5-turbo-16k".
Proof.
  assert (Hconfirmed : hasChanges demo_resolves = true ->
                       alertAnswer demo_resolves <> "cancel") by discriminate.
  destruct (onSubmit_sends_one_request
              demo_duration demo_baseText (list string) (list string)
              (list string) (@length string) demo_pinned demo_toJson
              demo_inferSchema demo_random "ask_ai" "gpt4" demo_ndv
              demo_resolves demo_world
              (mkNode "A" (Some "runOnceForAllItems")) eq_refl Hconfirmed)
    as (req & Hrequests & Hquestion & Hschema & Hinput & _ & _ & Hmodel).
  exists req. repeat split; try assumption.
  apply Hmodel. discriminate.
Defined.

(** X6 on the call that resolves. *)
Lemma onSubmit_tracks_click_and_finish_witness :
  tracked (snd (demo_onSubmit demo_resolves demo_world)) =
    [ mkTracked "ask.generationClicked" "add two numbers" None None None None;
      mkTracked "askAi.generationFinished" "add two numbers"
                (Some "return a+b") (Some 42%Z) (Some false) (Some "") ].
Proof.
  assert (Hconfirmed : hasChanges demo_resolves = true ->
                       alertAnswer demo_resolves <> "cancel") by discriminate.
  destruct (onSubmit_tracks_click_and_finish
              demo_duration demo_baseText (list string) (list string)
              (list string) (@length string) demo_pinned demo_toJson
              demo_inferSchema demo_random "ask_ai" "gpt4" demo_ndv
              demo_resolves demo_world
              (mkNode "A" (Some "runOnceForAllItems")) eq_refl Hconfirmed)
    as (Hresolved & _).
  exact (Hresolved (mkGenerated "return a+b" (Some 42%Z)) eq_refl).
Defined.

(** X8 on the rejection with a zero direct status and 429 in the response:
    the toast carries the rate message. *)
Lemma onSubmit_failure_toast_witness :
  toasts (snd (demo_onSubmit demo_rejects_429 demo_world)) =
    [ mkToast "error" "codeNodeEditor.askAi.generationFailed"
              (Some "codeNodeEditor.askAi.generationFailedRate") ].
Proof.
  assert (Hconfirmed : hasChanges demo_rejects_429 = true ->
                       alertAnswer demo_rejects_429 <> "cancel")
    by discriminate.
  destruct (onSubmit_failure_toast
              demo_duration demo_baseText (list string) (list string)
              (list string) (@length string) demo_pinned demo_toJson
              demo_inferSchema demo_random "ask_ai" "gpt4" demo_ndv
              demo_rejects_429 demo_world
              (mkNode "A" (Some "runOnceForAllItems"))
              [ ("httpStatusCode", JNum 0);
                ("response", JObj [("status", JNum 429)]) ]
              (JNum 429) eq_refl Hconfirmed eq_refl
              (or_intror
                 (conj eq_refl
                       (ex_intro _ [("status", JNum 429)]
                                 (conj eq_refl eq_refl)))))
    as (_ & Htoasts & _).
  exact Htoasts.
Defined.



(** X11 with the random source that always returns one half. *)
Lemma loading_phrase_is_one_of_eight_witness :
  (0 <= loadingPhraseIndex
          (component
             (snd (demo_frames [13016%Q; 15100%Q] demo_loading_world))) < 8)%Z.
Proof.
  assert (Hrandom : forall n, (0 <= demo_random n)%Q /\ (demo_random n < 1)%Q).
  { intros n. split; [discriminate | reflexivity]. }
  assert (Hstart : (0 <= loadingPhraseIndex (component demo_loading_world)
                    < 8)%Z) by (split; [discriminate | reflexivity]).
  destruct (loading_phrase_is_one_of_eight
              demo_duration demo_baseText (list string) demo_random
              [13016%Q; 15100%Q] demo_loading_world Hrandom Hstart)
    as (Hrange & _).
  exact Hrange.
Defined.

(** X12 on the call that resolves. *)
Lemma loading_ends_after_teardown_witness :
  isLoading
    (component
       (snd (timersExpire (list string)
               (snd (demo_onSubmit demo_resolves demo_world)))))
  = false
  /\ frames
       (snd (animationFrame demo_duration (list string) demo_random 48%Q
               (snd (timersExpire (list string)
                       (snd (demo_onSubmit demo_resolves demo_world))))))
     = [].
Proof.
  assert (Hconfirmed : hasChanges demo_resolves = true ->
                       alertAnswer demo_resolves <> "cancel") by discriminate.
  destruct (loading_ends_after_teardown
              demo_min_length demo_duration demo_baseText (list string)
              (list string) (list string) (@length string) demo_pinned
              demo_toJson demo_inferSchema demo_random "ask_ai" "gpt4"
              demo_ndv demo_resolves demo_world
              (mkNode "A" (Some "runOnceForAllItems")) eq_refl Hconfirmed
              (or_introl
                 (ex_intro _ (mkGenerated "return a+b" (Some 42%Z)) eq_refl)))
    as (_ & _ & Hexpired & Hstops).
  split; [exact Hexpired |].
  destruct (Hstops 48%Q) as (Hnone & _). exact Hnone.
Defined.

(** X13 on the call that rejects with the error object without fields. *)
Lemma loader_stays_after_unreadable_rejection_witness :
  isLoading
    (component
       (snd (demo_frames [48%Q; 64%Q]
               (snd (timersExpire (list string)
                       (snd (demo_onSubmit demo_rejects demo_world)))))))
  = true.
Proof.
  assert (Hconfirmed : hasChanges demo_rejects = true ->
                       alertAnswer demo_rejects <> "cancel") by discriminate.
  destruct (loader_stays_after_unreadable_rejection
              demo_min_length demo_duration demo_baseText (list string)
              (list string) (list string) (@length string) demo_pinned
              demo_toJson demo_inferSchema demo_random "ask_ai" "gpt4"
              demo_ndv demo_rejects demo_world
              (mkNode "A" (Some "runOnceForAllItems")) [] [48%Q; 64%Q]
              eq_refl Hconfirmed eq_refl eq_refl eq_refl eq_refl)
    as (_ & Hloading & _).
  exact Hloading.
Defined.

(** X14 with the store that does not know "B". *)
Lemma getParentNodes_drops_unknown_nodes_witness :
  map name (getParentNodes (list string) demo_ndv demo_stores_without_B)
  = ["C"; "D"].
Proof.
  assert (Hname : forall n node,
             getNodeByName demo_stores_without_B n = Some node ->
             name node = n).
  { intros n node Hfound. unfold demo_stores_without_B in Hfound.
    cbn [getNodeByName] in Hfound.
    apply List.find_some in Hfound as [_ Heq]. now apply String.eqb_eq. }
  destruct (getParentNodes_drops_unknown_nodes
              (list string) demo_ndv demo_stores_without_B)
    as (_ & Hknown).
  destruct (Hknown (mkNode "A" (Some "runOnceForAllItems")) demo_workflow
                   eq_refl eq_refl Hname)
    as (Hnames & _).
  exact Hnames.
Defined.

(** X15 on the diamond. *)
Lemma mounted_schemas_name_distinct_ancestors_witness :
  let result :=
    demo_getSchemas
      (component
         (snd (onMounted (list string) (list string) snakeCase_ascii demo_ndv
                         demo_stores demo_world))) in
  List.NoDup
    (map nodeName
         (match inputSchema result with
          | Some primary => [primary]
          | None => []
          end ++ parentNodesSchemas result)).
Proof.
  assert (Hname : forall n node,
             getNodeByName demo_stores n = Some node -> name node = n).
  { intros n node Hfound. unfold demo_stores in Hfound.
    cbn [getNodeByName] in Hfound.
    apply List.find_some in Hfound as [_ Heq]. now apply String.eqb_eq. }
  destruct (mounted_schemas_name_distinct_ancestors
              (list string) (list string) (list string) (@length string)
              demo_pinned demo_toJson demo_inferSchema snakeCase_ascii
              demo_ndv demo_stores demo_world
              (mkNode "A" (Some "runOnceForAllItems")) demo_workflow
              eq_refl eq_refl Hname)
    as (Hnodup & _).
  exact Hnodup.
Defined.

(** X16 on a click that sends a request. *)
Lemma click_sends_only_when_enabled_witness :
  isLoading (component demo_world) = false
  /\ (demo_min_length <= String.length (prompt (component demo_world)))%nat.
Proof.
  assert (Hsent : requests (snd (demo_click demo_resolves demo_world))
                  <> requests demo_world).
  { vm_compute. discriminate. }
  destruct (click_sends_only_when_enabled
              demo_min_length demo_duration demo_baseText (list string)
              (list string) (list string) (@length string) demo_pinned
              demo_toJson demo_inferSchema demo_random "ask_ai" "gpt4"
              demo_ndv demo_resolves demo_world Hsent)
    as (Hidle & _ & Hlength & _).
  split; [exact Hidle | exact Hlength].
Defined.
